(** * Authentication core of the FastAPI starter: a shallow embedding

    The development follows the layout of the repository:
    - [app/crud/security.py]: password hashing and the two token issuers;
    - [app/crud/auth.py]: the access guard and the authenticator;
    - [app/routes/auth.py], [app/routes/users.py]: the handlers that call them.

    Python values are kept dynamically typed ([pyval]); exceptions are the
    [Raise] branch of [result].  Wall-clock time is a number of seconds
    ([Z]); the random salt drawn by [bcrypt.gensalt()] and the clock read by
    [datetime.now] are explicit arguments.  The two third-party packages,
    [bcrypt] and PyJWT, are interfaces ([Bcrypt], [PyJWT]) with the part of
    their contract the code relies on; [ref_bcrypt] and [ref_jwt] are small
    executable instances on which concrete runs are evaluated. *)

From Stdlib Require Import ZArith Lia Bool List String Ascii DecimalString.
From Stdlib.Strings Require Import Byte.
From stdpp Require Import base option strings gmap list.

Local Open Scope string_scope.
Local Open Scope Z_scope.

(** ** Python values and exceptions *)

#[global] Instance byte_eq_dec : EqDecision byte := Byte.byte_eq_dec.

(** A [str] is represented by its UTF-8 text, a [bytes] object by its
    bytes. *)
Inductive pyval : Type :=
| VNone
| VBool (b : bool)
| VInt (n : Z)
| VStr (s : string)
| VBytes (b : list byte).

#[global] Instance pyval_eq_dec : EqDecision pyval.
Proof. solve_decision. Defined.

(** Truth value of an object, as tested by [if x:] and [not x]. *)
Definition truthy (v : pyval) : bool :=
  match v with
  | VNone => false
  | VBool b => b
  | VInt n => negb (n =? 0)
  | VStr s => negb (bool_decide (s = EmptyString))
  | VBytes b => negb (bool_decide (b = []))
  end.

(** The exception classes of PyJWT that matter here.  [InvalidSignatureError]
    derives from [DecodeError]; [ExpiredSignatureError],
    [ImmatureSignatureError] and [InvalidAlgorithmError] derive from
    [InvalidTokenError] only. *)
Inductive jwt_error : Type :=
| DecodeError
| InvalidSignatureError
| ExpiredSignatureError
| ImmatureSignatureError
| InvalidAlgorithmError.

#[global] Instance jwt_error_eq_dec : EqDecision jwt_error.
Proof. solve_decision. Defined.

(** [isinstance(e, jwt.exceptions.DecodeError)] *)
Definition is_DecodeError (e : jwt_error) : bool :=
  match e with
  | DecodeError | InvalidSignatureError => true
  | _ => false
  end.

Inductive exn : Type :=
| HTTPException (status_code : Z) (detail : string) (headers : list (string * string))
| TypeError
| ValueError
| AttributeError
| KeyError (key : string)
| JWTException (e : jwt_error).

#[global] Instance exn_eq_dec : EqDecision exn.
Proof. solve_decision. Defined.

Inductive result (A : Type) : Type :=
| Ok (a : A)
| Raise (e : exn).
Arguments Ok {A} a.
Arguments Raise {A} e.

#[global] Instance result_ret : MRet result := fun A a => Ok a.
#[global] Instance result_bind : MBind result :=
  fun A B f m => match m with Ok a => f a | Raise e => Raise e end.

Definition is_ok {A} (r : result A) : bool :=
  match r with Ok _ => true | Raise _ => false end.

(** [bytes(x, encoding='utf-8')]: defined on [str] only; any other argument
    (a [bytes] object included) is a [TypeError]. *)
Definition py_bytes (x : pyval) : result (list byte) :=
  match x with
  | VStr s => Ok (list_byte_of_string s)
  | _ => Raise TypeError
  end.

(** [str(x)].  A [bytes] object prints as its [repr]. *)
Definition hex_digit (n : N) : ascii :=
  match String.get (N.to_nat n) "0123456789abcdef" with
  | Some c => c
  | None => "0"%char
  end.

Definition bytes_repr_char (quote : ascii) (c : ascii) : string :=
  let bs := "092"%char in
  if bool_decide (c = quote) || bool_decide (c = bs) then String bs (String c EmptyString)
  else if bool_decide (c = "009"%char) then String bs "t"
  else if bool_decide (c = "010"%char) then String bs "n"
  else if bool_decide (c = "013"%char) then String bs "r"
  else if (N_of_ascii c <? 32)%N || (127 <=? N_of_ascii c)%N then
    String bs (String "x" (String (hex_digit (N_of_ascii c / 16))
                                  (String (hex_digit (N_of_ascii c mod 16)) EmptyString)))
  else String c EmptyString.

Definition bytes_repr (b : list byte) : string :=
  let cs := map ascii_of_byte b in
  let squote := "'"%char in
  let dquote := "034"%char in
  let quote :=
    if bool_decide (squote ∈ cs) && negb (bool_decide (dquote ∈ cs))
    then dquote else squote in
  String "b" (String quote
    (fold_right (fun c acc => bytes_repr_char quote c ++ acc)
                (String quote EmptyString) cs)).

Definition py_str (x : pyval) : string :=
  match x with
  | VNone => "None"
  | VBool true => "True"
  | VBool false => "False"
  | VInt n => NilZero.string_of_int (Z.to_int n)
  | VStr s => s
  | VBytes b => bytes_repr b
  end.

(** ** config.py *)

Record Settings : Type := {
  SECRET_KEY : string;
  ALGORITHM : string;
  ACCESS_TOKEN_EXPIRE_MINUTES : Z;
  EMAIL_RESET_TOKEN_EXPIRE_HOURS : Z
}.

(** [timedelta(minutes=m)] and [timedelta(hours=h)], in seconds. *)
Definition minutes (m : Z) : Z := 60 * m.
Definition hours (h : Z) : Z := 3600 * h.

(** ** The bcrypt package *)

(** [hashpw pw s] is [bcrypt.hashpw(pw, s)] on two [bytes] arguments.
    [wellformed s] says that [s] parses as a salt or as a full hash blob;
    [accepts pw] that the package hashes [pw] (every version rejects some
    passwords: NUL bytes in 3.x, more than 72 bytes in 5.x);
    [is_gensalt s] that [s] is a value [bcrypt.gensalt()] can return. *)
Class Bcrypt : Type := {
  hashpw : list byte -> list byte -> result (list byte);
  wellformed : list byte -> bool;
  accepts : list byte -> bool;
  is_gensalt : list byte -> bool;
  hashpw_ok : forall pw s,
    wellformed s = true -> accepts pw = true -> exists h, hashpw pw s = Ok h;
  hashpw_invalid : forall pw s,
    wellformed s = false -> hashpw pw s = Raise ValueError;
  hashpw_raises : forall pw s e, hashpw pw s = Raise e -> e = ValueError;
  hashpw_rehash : forall pw s h, hashpw pw s = Ok h -> hashpw pw h = Ok h;
  gensalt_wellformed : forall s, is_gensalt s = true -> wellformed s = true;
  hashpw_salt : forall p1 p2 s1 s2 h,
    is_gensalt s1 = true -> is_gensalt s2 = true ->
    hashpw p1 s1 = Ok h -> hashpw p2 s2 = Ok h -> s1 = s2
}.

(** [bcrypt.checkpw]: hash again with the blob as salt, compare. *)
Definition checkpw `{Bcrypt} (password hashed_password : list byte) : result bool :=
  ret ← hashpw password hashed_password;
  Ok (bool_decide (ret = hashed_password)).

(** ** security.py: the password hasher *)

Section PasswordHasher.
Context `{Bcrypt}.

Definition verify_password (plain_password hashed_password : pyval) : result bool :=
  p ← py_bytes plain_password;
  h ← py_bytes hashed_password;
  checkpw p h.

(** [salt] is the value returned by [bcrypt.gensalt()] in this call. *)
Definition get_password_hash (password : pyval) (salt : list byte) : result pyval :=
  p ← py_bytes password;
  h ← hashpw p salt;
  Ok (VBytes h).

(** The text a [bytes] blob reads as once it sits in a [str] column. *)
Definition blob_text (v : pyval) : pyval :=
  match v with
  | VBytes b => VStr (string_of_list_byte b)
  | _ => v
  end.
End PasswordHasher.

(** ** The PyJWT package *)

(** A payload is the dict of claims. *)
Abbreviation payload := (gmap string pyval).

(** [jws_encode p key alg] is the signed compact serialisation that
    [jwt.encode] returns; [jws_decode t key algs] checks structure and
    signature and returns the claims, before any claim is validated.
    [token] is the set of strings a caller can present. *)
Class PyJWT : Type := {
  token : Type;
  jws_encode : payload -> string -> string -> token;
  jws_decode : token -> string -> list string -> result payload;
  jws_decode_encode : forall p key alg,
    jws_decode (jws_encode p key alg) key [alg] = Ok p
}.

(** [int(payload[claim])] as the claim validators call it; a [ValueError]
    becomes a [DecodeError].  A [str] claim is taken not to spell a number:
    the two issuers below write integers. *)
Definition claim_int (v : pyval) : result Z :=
  match v with
  | VInt n => Ok n
  | VBool b => Ok (if b then 1 else 0)
  | VStr _ => Raise (JWTException DecodeError)
  | VNone | VBytes _ => Raise TypeError
  end.

(** Validation of the registered claims with the default options and no
    leeway: [nbf] first, then [exp]. *)
Definition validate_claims (now : Z) (p : payload) : result unit :=
  _ ← match p !! "nbf" with
      | Some v =>
          nbf ← claim_int v;
          if now <? nbf then Raise (JWTException ImmatureSignatureError) else Ok tt
      | None => Ok tt
      end;
  match p !! "exp" with
  | Some v =>
      exp ← claim_int v;
      if exp <=? now then Raise (JWTException ExpiredSignatureError) else Ok tt
  | None => Ok tt
  end.

(** [jwt.decode(token, key, algorithms=algs)] with the clock at [now]. *)
Definition jwt_decode `{PyJWT} (now : Z) (t : token) (key : string)
    (algs : list string) : result payload :=
  p ← jws_decode t key algs;
  _ ← validate_claims now p;
  Ok p.

(** [d[key]] and [d.get(key)] on a payload. *)
Definition getitem (p : payload) (key : string) : result pyval :=
  match p !! key with
  | Some v => Ok v
  | None => Raise (KeyError key)
  end.

Definition dict_get (p : payload) (key : string) : pyval :=
  default VNone (p !! key).

(** ** security.py: the token codec *)

Section TokenCodec.
Context `{PyJWT} (settings : Settings).

(** The expiry [create_access_token] computes.  [if expires_delta:] is the
    truth value of the argument: [None] is false, and so is a zero
    [timedelta]. *)
Definition access_token_expire (expires_delta : option Z) (now : Z) : Z :=
  match expires_delta with
  | Some d =>
      if negb (d =? 0) then now + d
      else now + minutes (ACCESS_TOKEN_EXPIRE_MINUTES settings)
  | None => now + minutes (ACCESS_TOKEN_EXPIRE_MINUTES settings)
  end.

Definition create_access_token (subject : pyval) (role : pyval)
    (expires_delta : option Z) (now : Z) : token :=
  let expire := access_token_expire expires_delta now in
  let to_encode : payload :=
    {[ "exp" := VInt expire; "sub" := VStr (py_str subject); "role" := role ]} in
  jws_encode to_encode (SECRET_KEY settings) (ALGORITHM settings).

(** The handler names [jwt.JWTError], which the PyJWT module does not
    define: when the body of the [try] raises, looking the name up raises
    [AttributeError] in place of the exception being handled. *)
Definition verify_password_reset_token (t : token) (now : Z) : result pyval :=
  match
    decoded_token ← jwt_decode now t (SECRET_KEY settings) [ALGORITHM settings];
    getitem decoded_token "sub"
  with
  | Ok sub => Ok sub
  | Raise _ => Raise AttributeError
  end.

Definition generate_password_reset_token (email : pyval) (now : Z) : token :=
  let delta := hours (EMAIL_RESET_TOKEN_EXPIRE_HOURS settings) in
  let expires := now + delta in
  let exp := expires in
  jws_encode {[ "exp" := VInt exp; "nbf" := VInt now; "sub" := email ]}
             (SECRET_KEY settings) (ALGORITHM settings).
End TokenCodec.

(** ** The identity store *)

(** Modelled from the spec: the [User] table ([app/migrations/tables.py] is
    not part of the sources): an identity has an id, a unique email, a
    unique username, a stored password hash, an active flag and a role;
    the two timestamps come from [BaseTable].  Attributes hold Python
    values: a table model does not validate what is assigned to it. *)
Record User : Type := {
  id : pyval;
  created_at : pyval;
  updated_at : pyval;
  email : pyval;
  username : pyval;
  hashed_password : pyval;
  is_active : pyval;
  role : pyval
}.

#[global] Instance User_eq_dec : EqDecision User.
Proof. solve_decision. Defined.

(** [UserRole] is a [str] enumeration. *)
Definition UserRole_USER : pyval := VStr "user".
Definition UserRole_ADMIN : pyval := VStr "admin".

(** The rows of the table, in the order the store returns them. *)
Abbreviation DB := (list User).

(** [db.exec(select(User).where(...)).first()] *)
Definition select_first (cond : User -> bool) (db : DB) : option User :=
  List.find cond db.

(** [db.get(User, pk)] for a [pk] of the type of the id column, the text
    of a UUID.  The two routes that call it declare [user_id: int]; what
    the store does with a key of another type than the column is not
    modelled: here such a key finds no row. *)
Definition db_get (db : DB) (pk : pyval) : option User :=
  select_first (fun u => bool_decide (id u = pk)) db.

(** A row with another [updated_at], everything else equal. *)
Definition with_updated_at (v : pyval) (u : User) : User :=
  {| id := id u; created_at := created_at u; updated_at := v;
     email := email u; username := username u;
     hashed_password := hashed_password u; is_active := is_active u;
     role := role u |}.

(** The row an [UPDATE] leaves in the place of [loaded] for the object
    [user].  An object whose columns all have their loaded values is not
    written at all.  Otherwise its columns are written, and [updated_at],
    when the object does not change it itself, takes the clock of the
    store: [BaseTable] declares it with [onupdate=CURRENT_TIMESTAMP]. *)
Definition flush_update (now : Z) (loaded user : User) : User :=
  if bool_decide (user = loaded) then loaded
  else if bool_decide (updated_at user = updated_at loaded)
       then with_updated_at (VInt now) user
       else user.

(** [db.add(user); db.commit()] at time [now] for an object loaded under
    primary key [pk]: its row is rewritten by the [UPDATE].  A
    [db.refresh(user)] that follows reads that row back. *)
Definition db_commit (now : Z) (pk : pyval) (user : User) (db : DB) : DB :=
  map (fun row => if bool_decide (id row = pk) then flush_update now row user
                  else row) db.

(** Modelled from the spec: [TokenPayload] ([app/models/token.py] is not
    part of the sources) carries the subject id and the role of an access
    token. *)
Record TokenPayload : Type := {
  sub : pyval;
  token_role : pyval
}.

(** ** auth.py *)

Definition credentials_exception : exn :=
  HTTPException 401 "Could not validate credentials" [("WWW-Authenticate", "Bearer")].

Definition inactive_user_exception : exn :=
  HTTPException 400 "Inactive user" [].

Section AccessGuard.
Context `{Bcrypt} `{PyJWT} (settings : Settings).

(** The [try] block of [get_current_user]: only [DecodeError] and its
    subclasses are turned into [credentials_exception]. *)
Definition decode_token_data (t : token) (now : Z) : result TokenPayload :=
  match jwt_decode now t (SECRET_KEY settings) [ALGORITHM settings] with
  | Ok p =>
      let user_id := dict_get p "sub" in
      if bool_decide (user_id = VNone) then Raise credentials_exception
      else Ok {| sub := user_id; token_role := dict_get p "role" |}
  | Raise (JWTException e) =>
      if is_DecodeError e then Raise credentials_exception
      else Raise (JWTException e)
  | Raise e => Raise e
  end.

Definition get_current_user (db : DB) (t : token) (now : Z) : result User :=
  token_data ← decode_token_data t now;
  match select_first (fun u => bool_decide (id u = sub token_data)) db with
  | None => Raise credentials_exception
  | Some user =>
      if negb (truthy (is_active user)) then Raise inactive_user_exception
      else Ok user
  end.

Definition get_current_active_user (db : DB) (t : token) (now : Z) : result User :=
  current_user ← get_current_user db t now;
  if negb (truthy (is_active current_user)) then Raise inactive_user_exception
  else Ok current_user.

Definition get_current_admin_user (db : DB) (t : token) (now : Z) : result User :=
  current_user ← get_current_user db t now;
  if negb (bool_decide (role current_user = UserRole_ADMIN)) then
    Raise (HTTPException 403 "The user doesn't have enough privileges" [])
  else Ok current_user.

(** [or_(User.email == username, User.username == username)] *)
Definition matches_login (username_ : pyval) (u : User) : bool :=
  bool_decide (email u = username_) || bool_decide (username u = username_).

Definition authenticate_user (db : DB) (username_ password : pyval)
    : result (option User) :=
  match select_first (matches_login username_) db with
  | None => Ok None
  | Some user =>
      ok ← verify_password password (hashed_password user);
      if negb ok then Ok None else Ok (Some user)
  end.
End AccessGuard.

(** ** routes: responses and request bodies *)

Inductive response `{PyJWT} : Type :=
| RToken (access_token : token) (token_type : string)
| RMsg (msg : string)
| RUser (user : User)
| RUsers (users : list User).

(** [UserUpdate]: every field is optional; [None] is a field the request
    did not set, [Some v] a field set to [v] ([v] may be [VNone]).  The
    fields are in declaration order: those of [BaseTable], of [UserSchema],
    then [password]. *)
Record UserUpdate : Type := {
  in_id : option pyval;
  in_created_at : option pyval;
  in_updated_at : option pyval;
  in_email : option pyval;
  in_username : option pyval;
  in_is_active : option pyval;
  in_role : option pyval;
  in_password : option pyval
}.

(** A dict that is iterated over keeps its insertion order. *)
Abbreviation odict := (list (string * pyval)).

Definition odict_get (d : odict) (key : string) : option pyval :=
  snd <$> List.find (fun kv => bool_decide (fst kv = key)) d.

Fixpoint odict_set (d : odict) (key : string) (v : pyval) : odict :=
  match d with
  | [] => [(key, v)]
  | (k, w) :: rest =>
      if bool_decide (k = key) then (k, v) :: rest
      else (k, w) :: odict_set rest key v
  end.

Definition odict_del (d : odict) (key : string) : odict :=
  List.filter (fun kv => negb (bool_decide (fst kv = key))) d.

Definition dump_field (name : string) (v : option pyval) : odict :=
  match v with
  | Some x => [(name, x)]
  | None => []
  end.

(** [user_in.dict(exclude_unset=True)] / [user_in.model_dump(exclude_unset=True)] *)
Definition model_dump (user_in : UserUpdate) : odict :=
  (dump_field "id" (in_id user_in)
   ++ dump_field "created_at" (in_created_at user_in)
   ++ dump_field "updated_at" (in_updated_at user_in)
   ++ dump_field "email" (in_email user_in)
   ++ dump_field "username" (in_username user_in)
   ++ dump_field "is_active" (in_is_active user_in)
   ++ dump_field "role" (in_role user_in)
   ++ dump_field "password" (in_password user_in))%list.

(** [setattr(user, field, value)]: a model object refuses a name that is
    not one of its fields with [ValueError]. *)
Definition setattr (user : User) (field : string) (value : pyval) : result User :=
  if bool_decide (field = "id") then
    Ok {| id := value; created_at := created_at user; updated_at := updated_at user;
          email := email user; username := username user;
          hashed_password := hashed_password user; is_active := is_active user; role := role user |}
  else if bool_decide (field = "created_at") then
    Ok {| id := id user; created_at := value; updated_at := updated_at user;
          email := email user; username := username user;
          hashed_password := hashed_password user; is_active := is_active user; role := role user |}
  else if bool_decide (field = "updated_at") then
    Ok {| id := id user; created_at := created_at user; updated_at := value;
          email := email user; username := username user;
          hashed_password := hashed_password user; is_active := is_active user; role := role user |}
  else if bool_decide (field = "email") then
    Ok {| id := id user; created_at := created_at user; updated_at := updated_at user;
          email := value; username := username user;
          hashed_password := hashed_password user; is_active := is_active user; role := role user |}
  else if bool_decide (field = "username") then
    Ok {| id := id user; created_at := created_at user; updated_at := updated_at user;
          email := email user; username := value;
          hashed_password := hashed_password user; is_active := is_active user; role := role user |}
  else if bool_decide (field = "hashed_password") then
    Ok {| id := id user; created_at := created_at user; updated_at := updated_at user;
          email := email user; username := username user;
          hashed_password := value; is_active := is_active user; role := role user |}
  else if bool_decide (field = "is_active") then
    Ok {| id := id user; created_at := created_at user; updated_at := updated_at user;
          email := email user; username := username user;
          hashed_password := hashed_password user; is_active := value; role := role user |}
  else if bool_decide (field = "role") then
    Ok {| id := id user; created_at := created_at user; updated_at := updated_at user;
          email := email user; username := username user;
          hashed_password := hashed_password user; is_active := is_active user; role := value |}
  else Raise ValueError.

(** [for field, value in update_data.items(): setattr(user, field, value)] *)
Fixpoint setattr_items (user : User) (items : odict) : result User :=
  match items with
  | [] => Ok user
  | (field, value) :: rest =>
      user' ← setattr user field value;
      setattr_items user' rest
  end.

(** ** routes/auth.py *)

Section AuthRoutes.
Context `{Bcrypt} `{PyJWT} (settings : Settings).

Definition login_access_token (db : DB) (form_username form_password : pyval)
    (now : Z) : result response :=
  user ← authenticate_user db form_username form_password;
  match user with
  | None =>
      Raise (HTTPException 401 "Incorrect username or password"
                           [("WWW-Authenticate", "Bearer")])
  | Some user =>
      if negb (truthy (is_active user)) then Raise inactive_user_exception
      else
        let access_token_expires := minutes (ACCESS_TOKEN_EXPIRE_MINUTES settings) in
        Ok (RToken (create_access_token settings (id user) (role user)
                                        (Some access_token_expires) now)
                   "bearer")
  end.

(** The token is only printed; the response is the same either way. *)
Definition request_password_reset (db : DB) (body_email : pyval) (now : Z)
    : response * option token :=
  match select_first (fun u => bool_decide (email u = body_email)) db with
  | None => (RMsg "Password reset email sent", None)
  | Some _ =>
      let password_reset_token := generate_password_reset_token settings body_email now in
      (RMsg "Password reset email sent", Some password_reset_token)
  end.

Definition reset_password_confirm (db : DB) (body_token : token)
    (body_new_password : pyval) (now : Z) (salt : list byte)
    : result (DB * response) :=
  email_ ← verify_password_reset_token settings body_token now;
  if negb (truthy email_) then Raise (HTTPException 400 "Invalid token" [])
  else
    match select_first (fun u => bool_decide (email u = email_)) db with
    | None => Raise (HTTPException 404 "User not found" [])
    | Some user =>
        h ← get_password_hash body_new_password salt;
        user' ← setattr user "hashed_password" h;
        Ok (db_commit now (id user) user' db, RMsg "Password updated successfully")
    end.
End AuthRoutes.

(** ** routes/users.py *)

Section UserRoutes.
Context `{Bcrypt} `{PyJWT} (settings : Settings).

(** The password step shared by the two update handlers: a password that
    is present and true is replaced by its hash under [hashed_password];
    otherwise [update_data] is left as it is. *)
Definition hash_password_field (update_data : odict) (salt : list byte) : result odict :=
  match odict_get update_data "password" with
  | Some pw =>
      if truthy pw then
        h ← get_password_hash pw salt;
        Ok (odict_del (odict_set update_data "hashed_password" h) "password")
      else Ok update_data
  | None => Ok update_data
  end.

(** The body both update handlers end with: dump the request, treat the
    password, assign the items one by one. *)
Definition apply_update (user : User) (user_in : UserUpdate) (salt : list byte)
    : result User :=
  update_data ← hash_password_field (model_dump user_in) salt;
  setattr_items user update_data.

Definition read_user_me (db : DB) (t : token) (now : Z) : result (DB * response) :=
  current_user ← get_current_active_user settings db t now;
  Ok (db, RUser current_user).

(** [if value and value != current: if select(...).first(): raise 400] *)
Definition check_unused (db : DB) (value current : pyval) (column : User -> pyval)
    (detail : string) : result unit :=
  if truthy value && negb (bool_decide (value = current)) then
    match select_first (fun u => bool_decide (column u = value)) db with
    | Some _ => Raise (HTTPException 400 detail [])
    | None => Ok tt
    end
  else Ok tt.

Definition update_user_me (db : DB) (user_in : UserUpdate) (t : token) (now : Z)
    (salt : list byte) : result (DB * response) :=
  current_user ← get_current_active_user settings db t now;
  _ ← check_unused db (default VNone (in_email user_in)) (email current_user) email
                   "Email already registered";
  _ ← check_unused db (default VNone (in_username user_in)) (username current_user)
                   username "Username already registered";
  current_user' ← apply_update current_user user_in salt;
  Ok (db_commit now (id current_user) current_user' db,
      RUser (flush_update now current_user current_user')).

(** [offset(skip).limit(limit)], for a [skip] and a [limit] that are not
    negative. *)
Definition read_users (db : DB) (skip limit : Z) (t : token) (now : Z)
    : result (DB * response) :=
  _ ← get_current_admin_user settings db t now;
  Ok (db, RUsers (take (Z.to_nat limit) (drop (Z.to_nat skip) db))).

Definition read_user_by_id (db : DB) (user_id : pyval) (t : token) (now : Z)
    : result (DB * response) :=
  _ ← get_current_admin_user settings db t now;
  match db_get db user_id with
  | None => Raise (HTTPException 404 "User not found" [])
  | Some user => Ok (db, RUser user)
  end.

Definition update_user (db : DB) (user_id : pyval) (user_in : UserUpdate)
    (t : token) (now : Z) (salt : list byte) : result (DB * response) :=
  _ ← get_current_admin_user settings db t now;
  match db_get db user_id with
  | None => Raise (HTTPException 404 "User not found" [])
  | Some user =>
      user' ← apply_update user user_in salt;
      Ok (db_commit now (id user) user' db, RUser (flush_update now user user'))
  end.

(** The operations behind a bearer token. *)
Inductive guarded_request : Type :=
| ReadUserMe
| UpdateUserMe (user_in : UserUpdate) (salt : list byte)
| ReadUsers (skip limit : Z)
| ReadUserById (user_id : pyval)
| UpdateUser (user_id : pyval) (user_in : UserUpdate) (salt : list byte).

Definition handle (req : guarded_request) (db : DB) (t : token) (now : Z)
    : result (DB * response) :=
  match req with
  | ReadUserMe => read_user_me db t now
  | UpdateUserMe user_in salt => update_user_me db user_in t now salt
  | ReadUsers skip limit => read_users db skip limit t now
  | ReadUserById user_id => read_user_by_id db user_id t now
  | UpdateUser user_id user_in salt => update_user db user_id user_in t now salt
  end.
End UserRoutes.

(** ** routes/auth.py: registration; crud.py: the initial administrator *)

(** [UserCreate]: a validated body, so every field has a value (its own or
    the default of [UserSchema] and [BaseTable]). *)
Record UserCreate : Type := {
  uc_id : pyval;
  uc_created_at : pyval;
  uc_updated_at : pyval;
  uc_email : pyval;
  uc_username : pyval;
  uc_is_active : pyval;
  uc_role : pyval;
  uc_password : pyval
}.

(** [db.add(user); db.commit(); db.refresh(user)] for a new object: the row
    is appended.  Modelled from the spec: the columns the constructor call
    leaves out take the defaults of the [User] table: a fresh id
    ([new_id], drawn by [uuid4]), the server's timestamp ([now]) and an
    active flag that is true. *)
Definition new_user (new_id : pyval) (now : Z) (email_ username_ hashed role_ : pyval)
    : User :=
  {| id := new_id; created_at := VInt now; updated_at := VInt now;
     email := email_; username := username_; hashed_password := hashed;
     is_active := VBool true; role := role_ |}.

Definition db_insert (user : User) (db : DB) : DB := (db ++ [user])%list.

Section Registration.
Context `{Bcrypt} `{PyJWT} (settings : Settings).

Definition register_user (db : DB) (user_in : UserCreate) (new_id : pyval)
    (now : Z) (salt : list byte) : result (DB * response) :=
  match select_first (fun u => bool_decide (email u = uc_email user_in)) db with
  | Some _ => Raise (HTTPException 400 "User with this email already exists" [])
  | None =>
      match select_first (fun u => bool_decide (username u = uc_username user_in)) db with
      | Some _ => Raise (HTTPException 400 "User with this username already exists" [])
      | None =>
          h ← get_password_hash (uc_password user_in) salt;
          let db_user :=
            new_user new_id now (uc_email user_in) (uc_username user_in) h
                     (uc_role user_in) in
          let access_token_expires := minutes (ACCESS_TOKEN_EXPIRE_MINUTES settings) in
          Ok (db_insert db_user db,
              RToken (create_access_token settings (id db_user) (role db_user)
                                          (Some access_token_expires) now)
                     "bearer")
      end
  end.

Definition create_initial_admin (db : DB) (new_id : pyval) (now : Z)
    (salt : list byte) : result DB :=
  match select_first (fun u => bool_decide (role u = UserRole_ADMIN)) db with
  | Some _ => Ok db
  | None =>
      h ← get_password_hash (VStr "admin") salt;
      let admin_user :=
        new_user new_id now (VStr "admin@amref.com") (VStr "admin") h UserRole_ADMIN in
      Ok (db_insert admin_user db)
  end.
End Registration.

(** ** migrations/tables.py: the counters of a quiz attempt *)

Record Question : Type := { question_text : string }.

Record Quiz : Type := { questions : list Question }.

(** [is_correct: bool | None] *)
Record UserAnswer : Type := { is_correct : option bool }.

Record UserQuizAttempt : Type := {
  quiz : option Quiz;
  answers : list UserAnswer
}.

(** [len(self.quiz.questions) if self.quiz and self.quiz.questions else 0] *)
Definition total_questions (a : UserQuizAttempt) : nat :=
  match quiz a with
  | Some q =>
      match questions q with
      | [] => 0%nat
      | _ :: _ => length (questions q)
      end
  | None => 0%nat
  end.

(** [sum(1 for answer in self.answers if answer.is_correct)] *)
Definition correct_answers (a : UserQuizAttempt) : nat :=
  length (List.filter (fun answer => match is_correct answer with
                                     | Some true => true
                                     | _ => false
                                     end) (answers a)).

(** [sum(1 for answer in self.answers if answer.is_correct is False)] *)
Definition incorrect_answers (a : UserQuizAttempt) : nat :=
  length (List.filter (fun answer => match is_correct answer with
                                     | Some false => true
                                     | _ => false
                                     end) (answers a)).

(** ** Reference instances of the two packages *)

(** A blob is the 29-byte salt prefix followed by the digest; the digest
    is kept symbolic (the password itself stands for it). *)
Definition ref_wellformed (s : list byte) : bool :=
  (29 <=? length s)%nat && bool_decide (take 4 s = list_byte_of_string "$2b$").

Definition ref_accepts (pw : list byte) : bool := (length pw <=? 72)%nat.

Definition ref_is_gensalt (s : list byte) : bool :=
  ref_wellformed s && (length s =? 29)%nat.

Definition ref_hashpw (pw s : list byte) : result (list byte) :=
  if ref_wellformed s && ref_accepts pw then Ok (take 29 s ++ pw)%list
  else Raise ValueError.

#[global, refine] Instance ref_bcrypt : Bcrypt := {|
  hashpw := ref_hashpw;
  wellformed := ref_wellformed;
  accepts := ref_accepts;
  is_gensalt := ref_is_gensalt
|}.
Proof.
  - intros pw s Hs Hp. unfold ref_hashpw. rewrite Hs, Hp. eauto.
  - intros pw s Hs. unfold ref_hashpw. by rewrite Hs.
  - intros pw s e. unfold ref_hashpw. by destruct (_ && _); intros [= <-].
  - intros pw s h. unfold ref_hashpw.
    destruct (ref_wellformed s) eqn:Hs; [|done].
    destruct (ref_accepts pw) eqn:Hp; [|done]. simpl. intros [= <-].
    unfold ref_wellformed in Hs. apply andb_prop in Hs as [Hl H4].
    apply Nat.leb_le in Hl.
    assert (Hlen : length (take 29 s) = 29%nat) by (rewrite length_take; lia).
    assert (Ht : take 29 (take 29 s ++ pw)%list = take 29 s).
    { rewrite take_app_le by lia. rewrite take_take. f_equal. }
    assert (Hw : ref_wellformed (take 29 s ++ pw)%list = true).
    { unfold ref_wellformed. apply andb_true_intro. split.
      - apply Nat.leb_le. rewrite length_app. lia.
      - rewrite take_app_le by lia. rewrite take_take. exact H4. }
    rewrite Hw, Ht. done.
  - intros s Hs. unfold ref_is_gensalt in Hs. by apply andb_prop in Hs as [? _].
  - intros p1 p2 s1 s2 h H1 H2. unfold ref_hashpw.
    unfold ref_is_gensalt in H1, H2.
    apply andb_prop in H1 as [W1 L1]. apply andb_prop in H2 as [W2 L2].
    apply Nat.eqb_eq in L1, L2. rewrite W1, W2.
    destruct (ref_accepts p1); [|done]. destruct (ref_accepts p2); [|done].
    simpl. rewrite !take_ge by lia. intros [= <-] [= Heq].
    apply app_inj_1 in Heq as [? _]; [done | lia].
Defined.

(** A token is either a payload signed under a key and an algorithm, or a
    text that does not parse. *)
Inductive ref_token : Type :=
| Signed (p : payload) (key alg : string)
| Garbled (text : string).

Definition ref_jws_decode (t : ref_token) (key : string) (algs : list string)
    : result payload :=
  match t with
  | Garbled _ => Raise (JWTException DecodeError)
  | Signed p k alg =>
      if negb (bool_decide (alg ∈ algs)) then Raise (JWTException InvalidAlgorithmError)
      else if negb (bool_decide (k = key)) then Raise (JWTException InvalidSignatureError)
      else Ok p
  end.

#[global, refine] Instance ref_jwt : PyJWT := {|
  token := ref_token;
  jws_encode := Signed;
  jws_decode := ref_jws_decode
|}.
Proof.
  intros p key alg. unfold ref_jws_decode.
  rewrite bool_decide_eq_true_2 by set_solver.
  by rewrite bool_decide_eq_true_2.
Defined.

(** The defaults of [config.py]; the secret is drawn at start-up. *)
Definition ref_settings : Settings := {|
  SECRET_KEY := "k3y";
  ALGORITHM := "HS256";
  ACCESS_TOKEN_EXPIRE_MINUTES := 30;
  EMAIL_RESET_TOKEN_EXPIRE_HOURS := 48
|}.

(** A row with another active flag, everything else equal. *)
Definition with_is_active (a : pyval) (u : User) : User :=
  {| id := id u; created_at := created_at u; updated_at := updated_at u;
     email := email u; username := username u;
     hashed_password := hashed_password u; is_active := a; role := role u |}.

(** A row with another stored hash, everything else equal. *)
Definition with_hashed_password (h : pyval) (u : User) : User :=
  {| id := id u; created_at := created_at u; updated_at := updated_at u;
     email := email u; username := username u;
     hashed_password := h; is_active := is_active u; role := role u |}.

(** ** Vocabulary for stating properties *)

Definition forbidden_exception : exn :=
  HTTPException 403 "The user doesn't have enough privileges" [].

(** The requests served behind [get_current_admin_user]. *)
Definition admin_only (req : guarded_request) : bool :=
  match req with
  | ReadUsers _ _ | ReadUserById _ | UpdateUser _ _ _ => true
  | ReadUserMe | UpdateUserMe _ _ => false
  end.

(** Store invariants: ids are texts and no two rows share one; emails,
    and usernames, are pairwise distinct. *)
Definition ids_are_text (db : DB) : Prop :=
  Forall (fun u => exists s, id u = VStr s) db.

Definition unique_ids (db : DB) : Prop := NoDup (map id db).
Definition unique_emails (db : DB) : Prop := NoDup (map email db).
Definition unique_usernames (db : DB) : Prop := NoDup (map username db).

(** The object after the assignment loop of an update request: every
    field the request sets has the value sent, the others are as loaded;
    [h] is the hash it ends with.  The row the commit then leaves is
    [flush_update] of it. *)
Definition updated (user : User) (user_in : UserUpdate) (h : pyval) : User :=
  {| id := default (id user) (in_id user_in);
     created_at := default (created_at user) (in_created_at user_in);
     updated_at := default (updated_at user) (in_updated_at user_in);
     email := default (email user) (in_email user_in);
     username := default (username user) (in_username user_in);
     hashed_password := h;
     is_active := default (is_active user) (in_is_active user_in);
     role := default (role user) (in_role user_in) |}.

(** The requests that only read. *)
Definition read_only (req : guarded_request) : bool :=
  match req with
  | ReadUserMe | ReadUsers _ _ | ReadUserById _ => true
  | UpdateUserMe _ _ | UpdateUser _ _ _ => false
  end.

(** ** Fixtures for concrete runs *)

Definition salt_a : list byte := list_byte_of_string "$2b$12$abcdefghijklmnopqrstuv".
Definition salt_b : list byte := list_byte_of_string "$2b$12$ABCDEFGHIJKLMNOPQRSTUV".

(** The blob of ["secret1"] under [salt_a], as text. *)
Definition alice_hash : pyval := VStr "$2b$12$abcdefghijklmnopqrstuvsecret1".

Definition alice : User := {|
  id := VStr "7c9e6679-7425-40de-944b-e07fc1f90ae7";
  created_at := VInt 1700000000;
  updated_at := VInt 1700000000;
  email := VStr "a@x.com";
  username := VStr "a";
  hashed_password := alice_hash;
  is_active := VBool true;
  role := UserRole_USER
|}.

(** An administrator. *)
Definition carol : User := {|
  id := VStr "6ba7b810-9dad-11d1-80b4-00c04fd430c8";
  created_at := VInt 1700000000;
  updated_at := VInt 1700000000;
  email := VStr "c@x.com";
  username := VStr "c";
  hashed_password := alice_hash;
  is_active := VBool true;
  role := UserRole_ADMIN
|}.

(** A disabled account with the same password. *)
Definition bob : User := {|
  id := VStr "16fd2706-8baf-433b-82eb-8c7fada847da";
  created_at := VInt 1700000000;
  updated_at := VInt 1700000000;
  email := VStr "b@x.com";
  username := VStr "b";
  hashed_password := alice_hash;
  is_active := VBool false;
  role := UserRole_USER
|}.

(** An account whose stored hash is not bcrypt output. *)
Definition erin : User := {|
  id := VStr "7c9e6679-7425-40de-944b-e07fc1f90ae7";
  created_at := VInt 1700000000;
  updated_at := VInt 1700000000;
  email := VStr "e@x.com";
  username := VStr "e";
  hashed_password := VStr "not-a-bcrypt-hash";
  is_active := VBool true;
  role := UserRole_USER
|}.

(** Seventy-three characters: one more than the package hashes. *)
Definition long_password : string :=
  "0123456789012345678901234567890123456789012345678901234567890123456789012".

Definition no_update : UserUpdate := {|
  in_id := None; in_created_at := None; in_updated_at := None; in_email := None;
  in_username := None; in_is_active := None; in_role := None; in_password := None
|}.

(** [{"username": "a2", "password": ""}] *)
Definition rename_with_empty_password : UserUpdate := {|
  in_id := None; in_created_at := None; in_updated_at := None; in_email := None;
  in_username := Some (VStr "a2"); in_is_active := None; in_role := None;
  in_password := Some (VStr EmptyString)
|}.

(** [{"email": "d@x.com", "username": "d", "password": "secret4"}] with
    the defaults of the schema, and the same asking for the admin role. *)
Definition dave_in : UserCreate := {|
  uc_id := VStr "b0e42fe7-31a5-4894-a441-007e5256afea";
  uc_created_at := VNone; uc_updated_at := VNone;
  uc_email := VStr "d@x.com"; uc_username := VStr "d";
  uc_is_active := VBool false; uc_role := UserRole_USER;
  uc_password := VStr "secret4"
|}.

Definition dave_admin_in : UserCreate := {|
  uc_id := VStr "b0e42fe7-31a5-4894-a441-007e5256afea";
  uc_created_at := VNone; uc_updated_at := VNone;
  uc_email := VStr "d@x.com"; uc_username := VStr "d";
  uc_is_active := VBool false; uc_role := UserRole_ADMIN;
  uc_password := VStr "secret4"
|}.

(** [{"username": "a2", "password": "newpass"}] *)
Definition rename_with_password : UserUpdate := {|
  in_id := None; in_created_at := None; in_updated_at := None; in_email := None;
  in_username := Some (VStr "a2"); in_is_active := None; in_role := None;
  in_password := Some (VStr "newpass")
|}.

(** [{"role": "admin"}] *)
Definition make_admin_in : UserUpdate := {|
  in_id := None; in_created_at := None; in_updated_at := None; in_email := None;
  in_username := None; in_is_active := None; in_role := Some UserRole_ADMIN;
  in_password := None
|}.

(** [{"email": "c@x.com"}] and [{"username": "c"}]: both belong to
    [carol]. *)
Definition take_email_in : UserUpdate := {|
  in_id := None; in_created_at := None; in_updated_at := None;
  in_email := Some (VStr "c@x.com");
  in_username := None; in_is_active := None; in_role := None; in_password := None
|}.

Definition take_username_in : UserUpdate := {|
  in_id := None; in_created_at := None; in_updated_at := None; in_email := None;
  in_username := Some (VStr "c"); in_is_active := None; in_role := None;
  in_password := None
|}.

(** [{"email": "a2@x.com"}] *)
Definition new_email_in : UserUpdate := {|
  in_id := None; in_created_at := None; in_updated_at := None;
  in_email := Some (VStr "a2@x.com");
  in_username := None; in_is_active := None; in_role := None; in_password := None
|}.

Definition alice_token `{PyJWT} : token :=
  create_access_token ref_settings (id alice) UserRole_USER None 1000.

Definition carol_token `{PyJWT} : token :=
  create_access_token ref_settings (id carol) UserRole_ADMIN None 1000.

(** Three answers: one right, one wrong, one not marked. *)
Definition attempt_3 : UserQuizAttempt := {|
  quiz := Some {| questions := [ {| question_text := "q1" |};
                                 {| question_text := "q2" |} ] |};
  answers := [ {| is_correct := Some true |}; {| is_correct := Some false |};
               {| is_correct := None |} ]
|}.

(** Two stored users: one has the email of [dave_in], the other its
    username. *)
Definition dora : User := {|
  id := VStr "9b2f3c1e-5d7a-4c58-8f0e-2a6b1c9d4e7f";
  created_at := VInt 1700000000;
  updated_at := VInt 1700000000;
  email := VStr "d@x.com";
  username := VStr "dora";
  hashed_password := alice_hash;
  is_active := VBool true;
  role := UserRole_USER
|}.

Definition dan : User := {|
  id := VStr "0c1d2e3f-4a5b-4c6d-8e7f-9a0b1c2d3e4f";
  created_at := VInt 1700000000;
  updated_at := VInt 1700000000;
  email := VStr "dan@x.com";
  username := VStr "d";
  hashed_password := alice_hash;
  is_active := VBool true;
  role := UserRole_USER
|}.

Definition dave_id : pyval := VStr "3f2504e0-4f89-41d3-9a0c-0305e82c3301".

(** * Properties *)

(** ** The password hasher *)

Section PasswordHasherFacts.
Context `{Bcrypt}.

Lemma checkpw_hashpw (pw s h : list byte) :
  hashpw pw s = Ok h -> checkpw pw h = Ok true.
Proof.
  intros Hh. unfold checkpw. rewrite (hashpw_rehash _ _ _ Hh). simpl.
  by rewrite bool_decide_eq_true_2.
Qed.

Lemma hashpw_result_wellformed (pw s h : list byte) :
  hashpw pw s = Ok h -> wellformed h = true.
Proof.
  intros Hh. apply hashpw_rehash in Hh.
  destruct (wellformed h) eqn:Hw; [done|].
  rewrite (hashpw_invalid pw h Hw) in Hh. discriminate.
Qed.

(** [checkpw] against a well-formed blob is a comparison with the re-hash. *)
Lemma checkpw_false (pw h : list byte) :
  wellformed h = true -> accepts pw = true -> hashpw pw h <> Ok h ->
  checkpw pw h = Ok false.
Proof.
  intros Hw Ha Hne. unfold checkpw.
  destruct (hashpw_ok pw h Hw Ha) as [h' Hh']. rewrite Hh'. simpl.
  rewrite bool_decide_eq_false_2; [done|]. intros ->. by apply Hne.
Qed.

(** A [bytes] blob is refused by [verify_password] whatever the plaintext. *)
Lemma verify_password_bytes (plain : pyval) (b : list byte) :
  verify_password plain (VBytes b) = Raise TypeError.
Proof. unfold verify_password. by destruct plain. Qed.

Lemma verify_password_str (plain blob : string) :
  verify_password (VStr plain) (VStr blob)
  = checkpw (list_byte_of_string plain) (list_byte_of_string blob).
Proof. reflexivity. Qed.

(** Round trip through the text of the blob: what a [str] column hands
    back verifies. *)
Lemma verify_password_blob_text (p : string) (salt : list byte) (h : pyval) :
  get_password_hash (VStr p) salt = Ok h ->
  verify_password (VStr p) (blob_text h) = Ok true.
Proof.
  unfold get_password_hash. simpl.
  destruct (hashpw (list_byte_of_string p) salt) as [b|e] eqn:Hh; [|done].
  simpl. intros [= <-]. simpl. rewrite verify_password_str.
  rewrite list_byte_of_string_of_list_byte. by eapply checkpw_hashpw.
Qed.

(** Per-call salting: two salts give two blobs, whatever the plaintexts. *)
Lemma get_password_hash_salted (p1 p2 : pyval) (s1 s2 : list byte) (h : pyval) :
  is_gensalt s1 = true -> is_gensalt s2 = true ->
  get_password_hash p1 s1 = Ok h -> get_password_hash p2 s2 = Ok h -> s1 = s2.
Proof.
  intros G1 G2. unfold get_password_hash.
  destruct (py_bytes p1) as [b1|]; [|done]. destruct (py_bytes p2) as [b2|]; [|done].
  simpl.
  destruct (hashpw b1 s1) as [h1|] eqn:E1; [|done].
  destruct (hashpw b2 s2) as [h2|] eqn:E2; [|done].
  simpl. intros [= <-] [= ->]. by eapply hashpw_salt.
Qed.

(** C1 (code as written): the blob returned by [get_password_hash] is a
    [bytes] object, and [verify_password] encodes its second argument with
    [bytes(..., encoding=...)]: for every plaintext that bcrypt hashes,
    [verify_password p (get_password_hash p)] raises [TypeError]; it does
    not return true. *)
Theorem verify_password_of_get_password_hash (p : string) (salt : list byte) :
  is_gensalt salt = true ->
  accepts (list_byte_of_string p) = true ->
  exists h, get_password_hash (VStr p) salt = Ok (VBytes h)
            /\ verify_password (VStr p) (VBytes h) = Raise TypeError
            /\ verify_password (VStr p) (blob_text (VBytes h)) = Ok true.
Proof.
  intros Hs Ha.
  destruct (hashpw_ok _ salt (gensalt_wellformed _ Hs) Ha) as [h Hh].
  exists h. assert (Hg : get_password_hash (VStr p) salt = Ok (VBytes h)).
  { unfold get_password_hash. simpl. by rewrite Hh. }
  split; [done|]. split; [apply verify_password_bytes|].
  by eapply verify_password_blob_text.
Qed.

(** C4 (amended): on [str] arguments [verify_password] raises [ValueError]
    when the blob is not well-formed bcrypt output, and returns a boolean,
    without raising, when the blob is well formed and bcrypt hashes the
    plaintext. *)
Theorem verify_password_malformed_or_bool (plain blob : string) :
  (wellformed (list_byte_of_string blob) = false ->
   verify_password (VStr plain) (VStr blob) = Raise ValueError)
  /\ (wellformed (list_byte_of_string blob) = true ->
      accepts (list_byte_of_string plain) = true ->
      exists b, verify_password (VStr plain) (VStr blob) = Ok b).
Proof.
  rewrite verify_password_str. unfold checkpw. split.
  - intros Hw. by rewrite (hashpw_invalid _ _ Hw).
  - intros Hw Ha. destruct (hashpw_ok _ _ Hw Ha) as [h ->]. simpl. eauto.
Qed.

(** Whatever the arguments, the only exceptions are [TypeError] (an
    argument that is not a [str]) and [ValueError] (from bcrypt). *)
Lemma verify_password_raises (plain blob : pyval) (e : exn) :
  verify_password plain blob = Raise e -> e = TypeError \/ e = ValueError.
Proof.
  unfold verify_password, checkpw.
  destruct plain, blob; simpl; try (intros [= <-]; by left).
  destruct (hashpw _ _) eqn:Hh; simpl; [done|].
  intros [= <-]. right. by eapply hashpw_raises.
Qed.
End PasswordHasherFacts.

(** C1, at a concrete input. *)
Lemma verify_password_of_get_password_hash_witness :
  exists h, get_password_hash (VStr "secret1") salt_a = Ok (VBytes h)
            /\ verify_password (VStr "secret1") (VBytes h) = Raise TypeError
            /\ verify_password (VStr "secret1") (blob_text (VBytes h)) = Ok true.
Proof.
  apply (verify_password_of_get_password_hash (H := ref_bcrypt) "secret1" salt_a);
    reflexivity.
Defined.

(** C4 (as stated) fails: a blob that is not bcrypt output makes
    [verify_password] raise; it does not return false. *)
Lemma verify_password_malformed_counterexample :
  verify_password (VStr "secret1") (VStr "not-a-bcrypt-hash") = Raise ValueError
  /\ verify_password (VStr "secret1") (VStr "not-a-bcrypt-hash") <> Ok false.
Proof. split; [reflexivity | discriminate]. Qed.

(** C4 (amended), at concrete inputs: a malformed blob, and a well-formed
    one with a password that does not match. *)
Lemma verify_password_malformed_or_bool_witness :
  verify_password (VStr "secret1") (VStr "not-a-bcrypt-hash") = Raise ValueError
  /\ exists b, verify_password (VStr "secret2") alice_hash = Ok b.
Proof.
  split.
  - apply (proj1 (verify_password_malformed_or_bool (H := ref_bcrypt)
                    "secret1" "not-a-bcrypt-hash")).
    reflexivity.
  - apply (proj2 (verify_password_malformed_or_bool (H := ref_bcrypt)
                    "secret2" "$2b$12$abcdefghijklmnopqrstuvsecret1"));
      reflexivity.
Defined.

(** ** The token codec and the access guard *)

Section TokenFacts.
Context `{PyJWT} (settings : Settings).

Lemma access_token_expire_given (d now : Z) :
  d <> 0 -> access_token_expire settings (Some d) now = now + d.
Proof.
  intros Hd. unfold access_token_expire.
  apply Z.eqb_neq in Hd. by rewrite Hd.
Qed.

Lemma access_token_expire_default (now : Z) :
  access_token_expire settings None now
  = now + minutes (ACCESS_TOKEN_EXPIRE_MINUTES settings).
Proof. reflexivity. Qed.

(** A zero [timedelta] is false, so it takes the default branch too. *)
Lemma access_token_expire_zero (now : Z) :
  access_token_expire settings (Some 0) now
  = now + minutes (ACCESS_TOKEN_EXPIRE_MINUTES settings).
Proof. reflexivity. Qed.

Lemma validate_claims_access (e now : Z) (s r : pyval) :
  validate_claims now {[ "exp" := VInt e; "sub" := s; "role" := r ]}
  = if e <=? now then Raise (JWTException ExpiredSignatureError) else Ok tt.
Proof. reflexivity. Qed.

Lemma validate_claims_reset (e n now : Z) (s : pyval) :
  validate_claims now {[ "exp" := VInt e; "nbf" := VInt n; "sub" := s ]}
  = if now <? n then Raise (JWTException ImmatureSignatureError)
    else if e <=? now then Raise (JWTException ExpiredSignatureError)
    else Ok tt.
Proof.
  unfold validate_claims.
  change (({[ "exp" := VInt e; "nbf" := VInt n; "sub" := s ]} : payload) !! "nbf")
    with (Some (VInt n)).
  change (({[ "exp" := VInt e; "nbf" := VInt n; "sub" := s ]} : payload) !! "exp")
    with (Some (VInt e)).
  simpl. destruct (now <? n); reflexivity.
Qed.

(** What the access-token decoder makes of an access token. *)
Lemma decode_token_data_access (subject role : pyval) (ttl : option Z) (issued now : Z) :
  decode_token_data settings (create_access_token settings subject role ttl issued) now
  = if access_token_expire settings ttl issued <=? now
    then Raise (JWTException ExpiredSignatureError)
    else Ok {| sub := VStr (py_str subject); token_role := role |}.
Proof.
  unfold decode_token_data, create_access_token, jwt_decode.
  rewrite jws_decode_encode. simpl. rewrite validate_claims_access.
  by destruct (_ <=? now).
Qed.

(** Round trip: before the embedded expiry the decoder returns the
    subject (as text) and the role. *)
Lemma decode_token_data_before_expiry (subject role : pyval) (ttl : option Z)
    (issued now : Z) :
  now < access_token_expire settings ttl issued ->
  decode_token_data settings (create_access_token settings subject role ttl issued) now
  = Ok {| sub := VStr (py_str subject); token_role := role |}.
Proof.
  intros Hlt. rewrite decode_token_data_access.
  by rewrite (proj2 (Z.leb_gt _ _) Hlt).
Qed.

(** From the embedded expiry on the decoder fails, with PyJWT's
    [ExpiredSignatureError]. *)
Lemma decode_token_data_after_expiry (subject role : pyval) (ttl : option Z)
    (issued now : Z) :
  access_token_expire settings ttl issued <= now ->
  decode_token_data settings (create_access_token settings subject role ttl issued) now
  = Raise (JWTException ExpiredSignatureError).
Proof.
  intros Hle. rewrite decode_token_data_access.
  by rewrite (proj2 (Z.leb_le _ _) Hle).
Qed.

(** C2 (code as written): a token issued with a ttl of zero does not expire
    at issue time: [if expires_delta:] is false for [timedelta(0)], the
    configured duration is used instead, and the decoder still returns the
    subject and the role during that whole duration. *)
Theorem zero_ttl_token_accepted (subject role : pyval) (issued now : Z) :
  issued <= now ->
  now < issued + minutes (ACCESS_TOKEN_EXPIRE_MINUTES settings) ->
  access_token_expire settings (Some 0) issued
  = issued + minutes (ACCESS_TOKEN_EXPIRE_MINUTES settings)
  /\ decode_token_data settings
       (create_access_token settings subject role (Some 0) issued) now
     = Ok {| sub := VStr (py_str subject); token_role := role |}.
Proof.
  intros _ Hlt. split; [reflexivity|].
  apply decode_token_data_before_expiry. by rewrite access_token_expire_zero.
Qed.

(** The outcomes of the [try] block of [get_current_user], by what
    [jwt.decode] does. *)
Lemma decode_token_data_DecodeError (t : token) (now : Z) (e : jwt_error) :
  jwt_decode now t (SECRET_KEY settings) [ALGORITHM settings] = Raise (JWTException e) ->
  is_DecodeError e = true ->
  decode_token_data settings t now = Raise credentials_exception.
Proof. intros Hd He. unfold decode_token_data. by rewrite Hd, He. Qed.

Lemma decode_token_data_other_jwt_error (t : token) (now : Z) (e : jwt_error) :
  jwt_decode now t (SECRET_KEY settings) [ALGORITHM settings] = Raise (JWTException e) ->
  is_DecodeError e = false ->
  decode_token_data settings t now = Raise (JWTException e).
Proof. intros Hd He. unfold decode_token_data. by rewrite Hd, He. Qed.

Lemma decode_token_data_missing_sub (t : token) (now : Z) (p : payload) :
  jwt_decode now t (SECRET_KEY settings) [ALGORITHM settings] = Ok p ->
  p !! "sub" = None ->
  decode_token_data settings t now = Raise credentials_exception.
Proof.
  intros Hd Hs. unfold decode_token_data, dict_get. by rewrite Hd, Hs.
Qed.

(** The failures that do reach [credentials_exception] are one and the
    same value: a token that does not decode, a token without subject, and
    a subject that matches no stored user. *)
Lemma get_current_user_unauthenticated (db : DB) (t : token) (now : Z) :
  decode_token_data settings t now = Raise credentials_exception
  \/ (exists td, decode_token_data settings t now = Ok td
                 /\ select_first (fun u => bool_decide (id u = sub td)) db = None) ->
  get_current_user settings db t now = Raise credentials_exception.
Proof.
  unfold get_current_user. intros [-> | (td & -> & Hn)]; [done|].
  simpl. by rewrite Hn.
Qed.

(** C3 (code as written): for an expired token [jwt.decode] raises
    [ExpiredSignatureError], which is not a [DecodeError]: the [except]
    clause of [get_current_user] lets it through, and the caller gets that
    exception, not [credentials_exception]. *)
Theorem get_current_user_expired (db : DB) (subject role : pyval) (ttl : option Z)
    (issued now : Z) :
  access_token_expire settings ttl issued <= now ->
  get_current_user settings db (create_access_token settings subject role ttl issued) now
  = Raise (JWTException ExpiredSignatureError)
  /\ JWTException ExpiredSignatureError <> credentials_exception.
Proof.
  intros Hle. split; [|done]. unfold get_current_user.
  by rewrite decode_token_data_after_expiry.
Qed.
End TokenFacts.

(** C2, at a concrete input: issued at 1000 with ttl 0, decoded at 1001. *)
Lemma zero_ttl_token_accepted_witness :
  access_token_expire ref_settings (Some 0) 1000 = 1000 + 1800
  /\ decode_token_data ref_settings
       (create_access_token ref_settings (id alice) UserRole_USER (Some 0) 1000) 1001
     = Ok {| sub := id alice; token_role := UserRole_USER |}.
Proof.
  exact (zero_ttl_token_accepted (H := ref_jwt) ref_settings
           (id alice) UserRole_USER 1000 1001
           ltac:(lia) ltac:(unfold minutes; simpl; lia)).
Defined.

(** C3, at a concrete input: a 60-second token presented 61 seconds later. *)
Lemma get_current_user_expired_witness :
  get_current_user ref_settings [alice]
    (create_access_token ref_settings (id alice) UserRole_USER (Some 60) 1000) 1061
  = Raise (JWTException ExpiredSignatureError)
  /\ JWTException ExpiredSignatureError <> credentials_exception.
Proof.
  exact (get_current_user_expired (H := ref_jwt) ref_settings [alice]
           (id alice) UserRole_USER (Some 60) 1000 1061
           ltac:(vm_compute; discriminate)).
Defined.

(** ** The authenticator *)

Section AuthenticatorFacts.
Context `{Bcrypt} `{PyJWT} (settings : Settings).

(** [None] is returned when nothing matches the identifier and when the
    verifier returns false. *)
Lemma authenticate_user_Ok_None (db : DB) (ident pw : pyval) :
  select_first (matches_login ident) db = None
  \/ (exists u, select_first (matches_login ident) db = Some u
                /\ verify_password pw (hashed_password u) = Ok false) ->
  authenticate_user db ident pw = Ok None.
Proof.
  unfold authenticate_user. intros [-> | (u & -> & ->)]; reflexivity.
Qed.

(** An exception of the verifier leaves [authenticate_user] as it is. *)
Lemma authenticate_user_Raise (db : DB) (ident pw : pyval) (u : User) (e : exn) :
  select_first (matches_login ident) db = Some u ->
  verify_password pw (hashed_password u) = Raise e ->
  authenticate_user db ident pw = Raise e.
Proof. unfold authenticate_user. by intros -> ->. Qed.

(** The verifier returns, on a password the package hashes and a stored
    hash that is well-formed text. *)
Lemma verify_password_returns (pw s : string) :
  accepts (list_byte_of_string pw) = true ->
  wellformed (list_byte_of_string s) = true ->
  exists ok, verify_password (VStr pw) (VStr s) = Ok ok.
Proof.
  intros Ha Hw. unfold verify_password, checkpw. simpl.
  destruct (hashpw_ok _ _ Hw Ha) as [h ->]. simpl. eauto.
Qed.

(** C6 (amended): on a text password that the package hashes, and when
    the user the identifier matches, if any, has a stored hash that is
    well-formed bcrypt text, [authenticate_user] raises nothing, and it
    returns [None] exactly when the identifier matches no stored user or
    matches one whose stored hash does not verify the password: the two
    failures are the same value. *)
Theorem authenticate_user_failure_wellformed (db : DB) (ident : pyval) (pw : string) :
  accepts (list_byte_of_string pw) = true ->
  (forall u, select_first (matches_login ident) db = Some u ->
     exists s, hashed_password u = VStr s
               /\ wellformed (list_byte_of_string s) = true) ->
  (forall e, authenticate_user db ident (VStr pw) <> Raise e)
  /\ (authenticate_user db ident (VStr pw) = Ok None
      <-> select_first (matches_login ident) db = None
          \/ exists u, select_first (matches_login ident) db = Some u
                       /\ verify_password (VStr pw) (hashed_password u) <> Ok true).
Proof.
  intros Ha Hw. unfold authenticate_user.
  destruct (select_first (matches_login ident) db) as [u|] eqn:Hs.
  - destruct (Hw u eq_refl) as (s & Hh & Hs').
    destruct (verify_password_returns pw s Ha Hs') as [ok Hv].
    rewrite Hh, Hv. simpl. split; [by destruct ok|]. split.
    + intros Hn. right. exists u. split; [done|]. rewrite Hh, Hv. by destruct ok.
    + intros [? | (u' & [= <-] & Hn)]; [done|]. rewrite Hh, Hv in Hn.
      by destruct ok.
  - split; [done|]. split; [by left | done].
Qed.

(** Conversely [None] comes from these two cases only. *)
Lemma authenticate_user_None (db : DB) (ident pw : pyval) :
  authenticate_user db ident pw = Ok None ->
  select_first (matches_login ident) db = None
  \/ (exists u, select_first (matches_login ident) db = Some u
                /\ verify_password pw (hashed_password u) = Ok false).
Proof.
  unfold authenticate_user.
  destruct (select_first _ db) as [u|]; [|by left].
  destruct (verify_password pw (hashed_password u)) as [[]|] eqn:Hv; simpl; try done.
  intros _. right. eauto.
Qed.

(** C8: when the store's first match for the identifier is [u] and the
    password verifies against its hash, [authenticate_user] returns [u]
    whatever its active flag; an inactive [u] is turned away one layer up,
    by [login_access_token]. *)
Theorem authenticate_user_ignores_is_active (db : DB) (ident pw : pyval) (u : User)
    (now : Z) :
  select_first (matches_login ident) db = Some u ->
  verify_password pw (hashed_password u) = Ok true ->
  authenticate_user db ident pw = Ok (Some u)
  /\ (truthy (is_active u) = false ->
      login_access_token settings db ident pw now = Raise inactive_user_exception)
  /\ (truthy (is_active u) = true ->
      login_access_token settings db ident pw now
      = Ok (RToken (create_access_token settings (id u) (role u)
                      (Some (minutes (ACCESS_TOKEN_EXPIRE_MINUTES settings))) now)
                   "bearer")).
Proof.
  intros Hs Hv.
  assert (Ha : authenticate_user db ident pw = Ok (Some u)).
  { unfold authenticate_user. by rewrite Hs, Hv. }
  split; [done|].
  unfold login_access_token. rewrite Ha. simpl.
  split; intros ->; reflexivity.
Qed.

Lemma select_first_with_is_active (cond : User -> bool) (a : pyval) (db : DB) :
  (forall u, cond (with_is_active a u) = cond u) ->
  select_first cond (map (with_is_active a) db)
  = with_is_active a <$> select_first cond db.
Proof.
  intros Hc. unfold select_first.
  induction db as [|row db IH]; [done|].
  simpl. rewrite Hc. by destruct (cond row).
Qed.

(** The outcome of [authenticate_user] does not depend on the active flags
    in the store: set them all to any value, the same user comes back. *)
Lemma authenticate_user_with_is_active (a : pyval) (db : DB) (ident pw : pyval) :
  authenticate_user (map (with_is_active a) db) ident pw
  = match authenticate_user db ident pw with
    | Ok o => Ok (with_is_active a <$> o)
    | Raise e => Raise e
    end.
Proof.
  unfold authenticate_user.
  rewrite select_first_with_is_active by done.
  destruct (select_first _ db) as [u|]; [|done]. simpl.
  by destruct (verify_password pw (hashed_password u)) as [[]|].
Qed.

(** The uniqueness reading: a stored user that is the only one to match
    the identifier is the store's first match. *)
Lemma select_first_unique (cond : User -> bool) (db : DB) (u : User) :
  In u db -> cond u = true ->
  (forall v, In v db -> cond v = true -> v = u) ->
  select_first cond db = Some u.
Proof.
  unfold select_first. induction db as [|row db IH]; [done|].
  intros Hin Hc Hu. simpl.
  destruct (cond row) eqn:Hr.
  - f_equal. apply Hu; [by left | done].
  - apply IH; [|done|].
    + destruct Hin as [-> | Hin]; [congruence | done].
    + intros v Hv. apply Hu. by right.
Qed.
End AuthenticatorFacts.

(** C6 (as stated) fails: when the verifier raises, on a stored hash that
    is not bcrypt output or on a password the package does not hash, a
    known identifier makes [authenticate_user] raise, and an unknown one
    makes it return [None]: the caller tells the two apart. *)
Lemma authenticate_user_raises_counterexample :
  let db := [alice; erin] in
  (select_first (matches_login (VStr "nobody")) db = None
   /\ authenticate_user db (VStr "nobody") (VStr "secret1") = Ok None)
  /\ (select_first (matches_login (VStr "e@x.com")) db = Some erin
      /\ verify_password (VStr "secret1") (hashed_password erin) <> Ok true
      /\ authenticate_user db (VStr "e@x.com") (VStr "secret1") = Raise ValueError)
  /\ (authenticate_user db (VStr "nobody") (VStr long_password) = Ok None
      /\ select_first (matches_login (VStr "a")) db = Some alice
      /\ verify_password (VStr long_password) (hashed_password alice) <> Ok true
      /\ authenticate_user db (VStr "a") (VStr long_password) = Raise ValueError).
Proof.
  repeat split; try reflexivity; discriminate.
Qed.

(** C6 (amended), at concrete inputs: an unknown identifier and a wrong
    password, against well-formed hashes. *)
Lemma authenticate_user_failure_wellformed_witness :
  (forall e, authenticate_user [alice; bob] (VStr "a") (VStr "wrong") <> Raise e)
  /\ (authenticate_user [alice; bob] (VStr "a") (VStr "wrong") = Ok None
      <-> select_first (matches_login (VStr "a")) [alice; bob] = None
          \/ exists u, select_first (matches_login (VStr "a")) [alice; bob] = Some u
                       /\ verify_password (VStr "wrong") (hashed_password u)
                          <> Ok true).
Proof.
  apply (authenticate_user_failure_wellformed (H := ref_bcrypt)
           [alice; bob] (VStr "a") "wrong").
  - reflexivity.
  - intros u Hu. vm_compute in Hu. injection Hu as <-.
    eexists. split; reflexivity.
Defined.

(** The two failures of the scenario are one value. *)
Example authenticate_user_scenario :
  authenticate_user [alice] (VStr "nobody") (VStr "secret1") = Ok None
  /\ authenticate_user [alice] (VStr "a") (VStr "wrong") = Ok None.
Proof.
  split.
  - apply (authenticate_user_Ok_None (H := ref_bcrypt)). left. reflexivity.
  - apply (authenticate_user_Ok_None (H := ref_bcrypt)). right.
    exists alice. split; reflexivity.
Qed.

(** C8, at a concrete input: the disabled account authenticates, and the
    login handler refuses it. *)
Lemma authenticate_user_ignores_is_active_witness :
  authenticate_user [alice; bob] (VStr "b@x.com") (VStr "secret1") = Ok (Some bob)
  /\ login_access_token ref_settings [alice; bob] (VStr "b@x.com") (VStr "secret1") 1000
     = Raise inactive_user_exception.
Proof.
  pose proof (authenticate_user_ignores_is_active (H := ref_bcrypt) (H0 := ref_jwt)
                ref_settings [alice; bob] (VStr "b@x.com") (VStr "secret1") bob 1000
                eq_refl eq_refl) as (Ha & Hl & _).
  split; [exact Ha | exact (Hl eq_refl)].
Defined.

(** ** The access guard and the active flag *)

Section GuardFacts.
Context `{Bcrypt} `{PyJWT} (settings : Settings).

(** What [get_current_user] returns is an active user found under the
    subject of the token. *)
Lemma get_current_user_Ok (db : DB) (t : token) (now : Z) (u : User) :
  get_current_user settings db t now = Ok u ->
  truthy (is_active u) = true
  /\ exists td, decode_token_data settings t now = Ok td
                /\ select_first (fun v => bool_decide (id v = sub td)) db = Some u.
Proof.
  unfold get_current_user.
  destruct (decode_token_data settings t now) as [td|]; [|done]. simpl.
  destruct (select_first _ db) as [v|] eqn:Hs; [|done].
  destruct (truthy (is_active v)) eqn:Ha; simpl; [|done].
  intros [= <-]. eauto.
Qed.

Lemma get_current_user_inactive (db : DB) (t : token) (now : Z)
    (td : TokenPayload) (u : User) :
  decode_token_data settings t now = Ok td ->
  select_first (fun v => bool_decide (id v = sub td)) db = Some u ->
  truthy (is_active u) = false ->
  get_current_user settings db t now = Raise inactive_user_exception.
Proof.
  intros Hd Hs Ha. unfold get_current_user. rewrite Hd. simpl.
  by rewrite Hs, Ha.
Qed.

(** Every guarded operation starts with [get_current_user]: its exception
    is the exception of the operation. *)
Lemma handle_guard_raises (req : guarded_request) (db : DB) (t : token) (now : Z)
    (e : exn) :
  get_current_user settings db t now = Raise e ->
  handle settings req db t now = Raise e.
Proof.
  intros Hg.
  destruct req; simpl;
    unfold read_user_me, update_user_me, read_users, read_user_by_id, update_user,
           get_current_active_user, get_current_admin_user;
    rewrite Hg; reflexivity.
Qed.

Lemma handle_Ok (req : guarded_request) (db : DB) (t : token) (now : Z)
    (r : DB * response) :
  handle settings req db t now = Ok r ->
  exists u, get_current_user settings db t now = Ok u
            /\ truthy (is_active u) = true.
Proof.
  intros Hh.
  destruct (get_current_user settings db t now) as [u|e] eqn:Hg.
  - exists u. split; [done|]. by apply get_current_user_Ok in Hg as [? _].
  - rewrite (handle_guard_raises req _ _ _ _ Hg) in Hh. discriminate.
Qed.

(** C9: a token whose subject is the id of an inactive stored user is
    refused by [get_current_user] itself with the inactive-user error, and
    so by every guarded operation, also those that only ask for an admin
    and never go through [get_current_active_user]. *)
Theorem inactive_user_token_rejected (req : guarded_request) (db : DB) (t : token)
    (now : Z) (td : TokenPayload) (u : User) :
  decode_token_data settings t now = Ok td ->
  select_first (fun v => bool_decide (id v = sub td)) db = Some u ->
  truthy (is_active u) = false ->
  get_current_user settings db t now = Raise inactive_user_exception
  /\ get_current_admin_user settings db t now = Raise inactive_user_exception
  /\ handle settings req db t now = Raise inactive_user_exception.
Proof.
  intros Hd Hs Ha.
  pose proof (get_current_user_inactive _ _ _ _ _ Hd Hs Ha) as Hg.
  split; [done|]. split.
  - unfold get_current_admin_user. by rewrite Hg.
  - by apply handle_guard_raises.
Qed.
End GuardFacts.

(** C9, at a concrete input: the disabled account lists the users with a
    token that is otherwise valid. *)
Lemma inactive_user_token_rejected_witness :
  let t := create_access_token ref_settings (id bob) UserRole_ADMIN None 1000 in
  get_current_user ref_settings [alice; bob] t 1001 = Raise inactive_user_exception
  /\ get_current_admin_user ref_settings [alice; bob] t 1001
     = Raise inactive_user_exception
  /\ handle ref_settings (ReadUsers 0 100) [alice; bob] t 1001
     = Raise inactive_user_exception.
Proof.
  exact (inactive_user_token_rejected (H := ref_bcrypt) (H0 := ref_jwt) ref_settings
           (ReadUsers 0 100) [alice; bob]
           (create_access_token ref_settings (id bob) UserRole_ADMIN None 1000) 1001
           {| sub := id bob; token_role := UserRole_ADMIN |} bob
           eq_refl eq_refl eq_refl).
Defined.

(** ** The password-reset flow *)

Section ResetFacts.
Context `{Bcrypt} `{PyJWT} (settings : Settings).

(** The reset decoder reads the subject of any token that decodes,
    whatever claims come with it. *)
Lemma verify_password_reset_token_access (subject rol : pyval) (ttl : option Z)
    (issued now : Z) :
  now < access_token_expire settings ttl issued ->
  verify_password_reset_token settings
    (create_access_token settings subject rol ttl issued) now
  = Ok (VStr (py_str subject)).
Proof.
  intros Hlt. unfold verify_password_reset_token, create_access_token, jwt_decode.
  rewrite jws_decode_encode. simpl. rewrite validate_claims_access.
  by rewrite (proj2 (Z.leb_gt _ _) Hlt).
Qed.


(** The access decoder in turn takes the email of a reset token for a
    subject id, with no role. *)
Lemma decode_token_data_reset (email_ : pyval) (issued now : Z) :
  issued <= now ->
  now < issued + hours (EMAIL_RESET_TOKEN_EXPIRE_HOURS settings) ->
  email_ <> VNone ->
  decode_token_data settings (generate_password_reset_token settings email_ issued) now
  = Ok {| sub := email_; token_role := VNone |}.
Proof.
  intros Hle Hlt Hne.
  unfold decode_token_data, generate_password_reset_token, jwt_decode.
  rewrite jws_decode_encode. simpl. rewrite validate_claims_reset.
  rewrite (proj2 (Z.ltb_ge _ _) Hle).
  rewrite (proj2 (Z.leb_gt _ _) Hlt). simpl.
  change (dict_get _ "sub") with email_.
  by rewrite bool_decide_eq_false_2.
Qed.

(** The [UPDATE] writes the columns of the object; only [updated_at] can
    differ from it. *)
Lemma flush_update_columns (now : Z) (loaded user : User) :
  with_updated_at (updated_at user) (flush_update now loaded user)
  = with_updated_at (updated_at user) user.
Proof.
  unfold flush_update. destruct (bool_decide (user = loaded)) eqn:He.
  - apply bool_decide_eq_true_1 in He. by subst.
  - by destruct (bool_decide (updated_at user = updated_at loaded)).
Qed.

Lemma flush_update_email (now : Z) (loaded user : User) :
  email (flush_update now loaded user) = email user.
Proof.
  pose proof (flush_update_columns now loaded user) as Hc.
  by apply (f_equal email) in Hc.
Qed.



(** C5 (amended): the two kinds of token are told apart by the store
    lookup only.  An unexpired access token is decoded by the reset
    decoder, which takes the text of its subject for the email:
    [reset_password_confirm] then fails with "User not found" when no
    stored user has that email.  A reset token in its validity window is
    decoded by the access decoder, which takes its email for the subject
    id: [get_current_user] then fails with [credentials_exception] when no
    stored user has that id. *)
Theorem tokens_separated_by_lookup (db : DB) (subject rol : pyval) (ttl : option Z)
    (a_issued a_now : Z) (new_password : pyval) (salt : list byte)
    (email_ : pyval) (r_issued r_now : Z) :
  a_now < access_token_expire settings ttl a_issued ->
  py_str subject <> EmptyString ->
  select_first (fun u => bool_decide (email u = VStr (py_str subject))) db = None ->
  r_issued <= r_now ->
  r_now < r_issued + hours (EMAIL_RESET_TOKEN_EXPIRE_HOURS settings) ->
  email_ <> VNone ->
  select_first (fun u => bool_decide (id u = email_)) db = None ->
  verify_password_reset_token settings
    (create_access_token settings subject rol ttl a_issued) a_now
  = Ok (VStr (py_str subject))
  /\ reset_password_confirm settings db
       (create_access_token settings subject rol ttl a_issued)
       new_password a_now salt
     = Raise (HTTPException 404 "User not found" [])
  /\ decode_token_data settings
       (generate_password_reset_token settings email_ r_issued) r_now
     = Ok {| sub := email_; token_role := VNone |}
  /\ get_current_user settings db
       (generate_password_reset_token settings email_ r_issued) r_now
     = Raise credentials_exception.
Proof.
  intros Ha Hne Hsa Hr1 Hr2 Hnn Hsr.
  pose proof (verify_password_reset_token_access subject rol _ _ _ Ha) as Hv.
  pose proof (decode_token_data_reset email_ _ _ Hr1 Hr2 Hnn) as Hd.
  repeat split; [done| |done|].
  - unfold reset_password_confirm. rewrite Hv. simpl.
    rewrite bool_decide_eq_false_2 by done. simpl. by rewrite Hsa.
  - unfold get_current_user. rewrite Hd. simpl. by rewrite Hsr.
Qed.

(** When a stored user does have the text of the subject for email, the
    access token resets that user's password. *)
Lemma reset_password_confirm_access_token (db : DB) (subject rol : pyval)
    (ttl : option Z) (issued now : Z) (new_password : string) (salt h : list byte)
    (user : User) :
  now < access_token_expire settings ttl issued ->
  py_str subject <> EmptyString ->
  select_first (fun u => bool_decide (email u = VStr (py_str subject))) db = Some user ->
  hashpw (list_byte_of_string new_password) salt = Ok h ->
  reset_password_confirm settings db
    (create_access_token settings subject rol ttl issued)
    (VStr new_password) now salt
  = Ok (db_commit now (id user) (with_hashed_password (VBytes h) user) db,
        RMsg "Password updated successfully").
Proof.
  intros Ha Hne Hs Hh. unfold reset_password_confirm.
  rewrite (verify_password_reset_token_access subject rol _ _ _ Ha). simpl.
  rewrite bool_decide_eq_false_2 by done. simpl. rewrite Hs.
  unfold get_password_hash. simpl. by rewrite Hh.
Qed.

End ResetFacts.

(** C5 (as stated) fails: an access token whose subject reads as the email
    of a stored user is accepted by [reset_password_confirm], which resets
    that user's password; an access token for a user id is decoded and
    then fails with "User not found", not with "Invalid token"; and the
    access decoder returns a subject for a reset token. *)
Lemma access_token_as_reset_token_counterexample :
  reset_password_confirm ref_settings [alice]
    (create_access_token ref_settings (VStr "a@x.com") UserRole_USER None 1000)
    (VStr "intruder") 1001 salt_b
  = Ok ([with_updated_at (VInt 1001)
           (with_hashed_password
              (VBytes (salt_b ++ list_byte_of_string "intruder")%list) alice)],
        RMsg "Password updated successfully")
  /\ reset_password_confirm ref_settings [alice]
       (create_access_token ref_settings (id alice) UserRole_USER None 1000)
       (VStr "intruder") 1001 salt_b
     = Raise (HTTPException 404 "User not found" [])
  /\ decode_token_data ref_settings
       (generate_password_reset_token ref_settings (VStr "a@x.com") 1000) 1001
     = Ok {| sub := VStr "a@x.com"; token_role := VNone |}.
Proof. repeat split; reflexivity. Qed.

(** C5 (amended), at concrete inputs: the access token of a stored user
    sent to the reset handler, and a reset token for her email sent to the
    guard. *)
Lemma tokens_separated_by_lookup_witness :
  verify_password_reset_token ref_settings
    (create_access_token ref_settings (id alice) UserRole_USER None 1000) 1001
  = Ok (id alice)
  /\ reset_password_confirm ref_settings [alice]
       (create_access_token ref_settings (id alice) UserRole_USER None 1000)
       (VStr "intruder") 1001 salt_b
     = Raise (HTTPException 404 "User not found" [])
  /\ decode_token_data ref_settings
       (generate_password_reset_token ref_settings (VStr "a@x.com") 1000) 1001
     = Ok {| sub := VStr "a@x.com"; token_role := VNone |}
  /\ get_current_user ref_settings [alice]
       (generate_password_reset_token ref_settings (VStr "a@x.com") 1000) 1001
     = Raise credentials_exception.
Proof.
  exact (tokens_separated_by_lookup (H := ref_bcrypt) (H0 := ref_jwt) ref_settings
           [alice] (id alice) UserRole_USER None 1000 1001 (VStr "intruder") salt_b
           (VStr "a@x.com") 1000 1001
           eq_refl ltac:(discriminate) eq_refl ltac:(lia) eq_refl
           ltac:(discriminate) eq_refl).
Defined.


(** ** Profile updates and the password field *)

Section UpdateFacts.
Context `{Bcrypt} `{PyJWT} (settings : Settings).

(** [User] has no field named [password]. *)
Lemma setattr_password (user : User) (v : pyval) :
  setattr user "password" v = Raise ValueError.
Proof. reflexivity. Qed.

(** A password that is present but empty is not hashed, and it is not
    removed from [update_data] either: the assignment loop reaches the key
    [password] and raises. *)
Lemma apply_update_empty_password (user : User) (user_in : UserUpdate)
    (salt : list byte) :
  in_password user_in = Some (VStr EmptyString) ->
  apply_update user user_in salt = Raise ValueError.
Proof.
  destruct user_in as [i c m e n a r p]. simpl. intros ->.
  destruct i, c, m, e, n, a, r; reflexivity.
Qed.

(** The same for a password set to [None]. *)
Lemma apply_update_null_password (user : User) (user_in : UserUpdate)
    (salt : list byte) :
  in_password user_in = Some VNone ->
  apply_update user user_in salt = Raise ValueError.
Proof.
  destruct user_in as [i c m e n a r p]. simpl. intros ->.
  destruct i, c, m, e, n, a, r; reflexivity.
Qed.

(** Without a password field the stored hash is left alone. *)
Lemma apply_update_no_password (user user' : User) (user_in : UserUpdate)
    (salt : list byte) :
  in_password user_in = None ->
  apply_update user user_in salt = Ok user' ->
  hashed_password user' = hashed_password user.
Proof.
  destruct user_in as [i c m e n a r p]. simpl. intros ->.
  destruct i, c, m, e, n, a, r; intros [= <-]; reflexivity.
Qed.

(** A password that is true is hashed, and its hash is what is stored. *)
Lemma apply_update_password (user : User) (user_in : UserUpdate)
    (salt : list byte) (pw h : pyval) :
  in_password user_in = Some pw -> truthy pw = true ->
  get_password_hash pw salt = Ok h ->
  exists user', apply_update user user_in salt = Ok user'
                /\ hashed_password user' = h.
Proof.
  destruct user_in as [i c m e n a r p]. simpl. intros -> Ht Hh.
  unfold apply_update, hash_password_field.
  destruct i, c, m, e, n, a, r; simpl; rewrite Ht, Hh; simpl; eauto.
Qed.

(** C10 (code as written): a request whose password is the empty string is
    never applied.  Neither handler returns: once the guard and the
    look-ups have passed, the assignment of the left-over [password] item
    raises [ValueError] before anything is committed, so the other
    submitted fields are lost with it. *)
Theorem update_with_empty_password_raises (db : DB) (user_id : pyval)
    (user_in : UserUpdate) (t : token) (now : Z) (salt : list byte) :
  in_password user_in = Some (VStr EmptyString) ->
  is_ok (update_user_me settings db user_in t now salt) = false
  /\ is_ok (update_user settings db user_id user_in t now salt) = false
  /\ (forall current_user,
        get_current_active_user settings db t now = Ok current_user ->
        check_unused db (default VNone (in_email user_in)) (email current_user)
          email "Email already registered" = Ok tt ->
        check_unused db (default VNone (in_username user_in)) (username current_user)
          username "Username already registered" = Ok tt ->
        update_user_me settings db user_in t now salt = Raise ValueError)
  /\ (forall current_user user,
        get_current_admin_user settings db t now = Ok current_user ->
        db_get db user_id = Some user ->
        update_user settings db user_id user_in t now salt = Raise ValueError).
Proof.
  intros Hp. unfold update_user_me, update_user. repeat split.
  - destruct (get_current_active_user settings db t now) as [cu|]; [simpl|done].
    destruct (check_unused db _ _ email _); [simpl|done].
    destruct (check_unused db _ _ username _); [simpl|done].
    by rewrite apply_update_empty_password.
  - destruct (get_current_admin_user settings db t now) as [cu|]; [simpl|done].
    destruct (db_get db user_id) as [user|]; [|done].
    by rewrite apply_update_empty_password.
  - intros cu Hg He Hn. rewrite Hg. simpl. rewrite He. simpl. rewrite Hn. simpl.
    by rewrite apply_update_empty_password.
  - intros cu user Hg Hu. rewrite Hg. simpl. rewrite Hu.
    by rewrite apply_update_empty_password.
Qed.
End UpdateFacts.

(** C10, at a concrete input: [{"username": "a2", "password": ""}] sent
    by the user for their own profile, and by an administrator for that
    user. *)
Lemma update_with_empty_password_raises_witness :
  update_user_me ref_settings [alice; carol] rename_with_empty_password
    (create_access_token ref_settings (id alice) UserRole_USER None 1000) 1001 salt_b
  = Raise ValueError
  /\ update_user ref_settings [alice; carol] (id alice) rename_with_empty_password
       (create_access_token ref_settings (id carol) UserRole_ADMIN None 1000)
       1001 salt_b
     = Raise ValueError.
Proof.
  split.
  - pose proof (update_with_empty_password_raises (H := ref_bcrypt) (H0 := ref_jwt)
                  ref_settings [alice; carol] (id alice) rename_with_empty_password
                  (create_access_token ref_settings (id alice) UserRole_USER None 1000)
                  1001 salt_b eq_refl) as (_ & _ & Hme & _).
    exact (Hme alice eq_refl eq_refl eq_refl).
  - pose proof (update_with_empty_password_raises (H := ref_bcrypt) (H0 := ref_jwt)
                  ref_settings [alice; carol] (id alice) rename_with_empty_password
                  (create_access_token ref_settings (id carol) UserRole_ADMIN None 1000)
                  1001 salt_b eq_refl) as (_ & _ & _ & Hadm).
    exact (Hadm carol alice eq_refl eq_refl).
Defined.

(** The same request without the password field goes through and leaves
    the stored hash as it was; the store stamps the row. *)
Example update_user_me_rename :
  update_user_me ref_settings [alice; carol]
    {| in_id := None; in_created_at := None; in_updated_at := None;
       in_email := None; in_username := Some (VStr "a2"); in_is_active := None;
       in_role := None; in_password := None |}
    (create_access_token ref_settings (id alice) UserRole_USER None 1000) 1001 salt_b
  = let alice' :=
      {| id := id alice; created_at := created_at alice;
         updated_at := VInt 1001; email := email alice;
         username := VStr "a2"; hashed_password := alice_hash;
         is_active := is_active alice; role := role alice |} in
    Ok ([alice'; carol], RUser alice').
Proof. reflexivity. Qed.

(** * Further properties of the code *)

(** ** Tokens *)

Section MoreTokenFacts.
Context `{Bcrypt} `{PyJWT} (settings : Settings).

(** Round trip of the access token: for a ttl other than zero (or none
    given, which means the configured minutes) the access decoder gives
    back the text of the subject and the role as long as the clock is
    before issue time plus ttl, and raises [ExpiredSignatureError] from
    that instant on. *)
Theorem access_token_round_trip (subject rol : pyval) (ttl : option Z)
    (issued now : Z) :
  ttl <> Some 0 ->
  decode_token_data settings (create_access_token settings subject rol ttl issued) now
  = if issued + default (minutes (ACCESS_TOKEN_EXPIRE_MINUTES settings)) ttl <=? now
    then Raise (JWTException ExpiredSignatureError)
    else Ok {| sub := VStr (py_str subject); token_role := rol |}.
Proof.
  intros Hz. rewrite decode_token_data_access.
  destruct ttl as [d|]; [|reflexivity].
  rewrite access_token_expire_given; [reflexivity|]. intros ->. by apply Hz.
Qed.

(** Round trip of the reset token: the reset decoder gives back the email
    from the second of issue until 3600 * EMAIL_RESET_TOKEN_EXPIRE_HOURS
    seconds later, and outside that window it raises [AttributeError]; it
    never answers [None] for a token of its own that is too early or too
    late. *)
Theorem reset_token_round_trip (email_ : pyval) (issued now : Z) :
  verify_password_reset_token settings
    (generate_password_reset_token settings email_ issued) now
  = if (issued <=? now)
       && (now <? issued + hours (EMAIL_RESET_TOKEN_EXPIRE_HOURS settings))
    then Ok email_ else Raise AttributeError.
Proof.
  unfold verify_password_reset_token, generate_password_reset_token, jwt_decode.
  rewrite jws_decode_encode. simpl. rewrite validate_claims_reset.
  destruct (Z.leb_spec issued now) as [Hle|Hgt].
  - rewrite (proj2 (Z.ltb_ge _ _) Hle). simpl.
    destruct (Z.ltb_spec now (issued + hours (EMAIL_RESET_TOKEN_EXPIRE_HOURS settings)))
      as [Hlt|Hge].
    + by rewrite (proj2 (Z.leb_gt _ _) Hlt).
    + by rewrite (proj2 (Z.leb_le _ _) Hge).
  - by rewrite (proj2 (Z.ltb_lt _ _) Hgt).
Qed.

(** A token that [jwt.decode] refuses, for whatever reason, does not give
    the 400 "Invalid token" of [reset_password_confirm]: the reset decoder
    raises [AttributeError] and the handler lets it through. *)
Theorem reset_password_confirm_undecodable (db : DB) (t : token)
    (new_password : pyval) (now : Z) (salt : list byte) (e : exn) :
  jwt_decode now t (SECRET_KEY settings) [ALGORITHM settings] = Raise e ->
  verify_password_reset_token settings t now = Raise AttributeError
  /\ reset_password_confirm settings db t new_password now salt = Raise AttributeError.
Proof.
  intros Hd.
  assert (Hv : verify_password_reset_token settings t now = Raise AttributeError).
  { unfold verify_password_reset_token. by rewrite Hd. }
  split; [done|]. unfold reset_password_confirm. by rewrite Hv.
Qed.

(** The exceptions of [reset_password_confirm] are these five and no
    other: [AttributeError] (the token does not decode or has no subject),
    400 "Invalid token" (a false subject), 404 "User not found",
    [TypeError] (a new password that is not a [str]) and [ValueError]
    (bcrypt refusing the password or the salt). *)
Theorem reset_password_confirm_raises (db : DB) (t : token) (new_password : pyval)
    (now : Z) (salt : list byte) (e : exn) :
  reset_password_confirm settings db t new_password now salt = Raise e ->
  e = AttributeError
  \/ e = HTTPException 400 "Invalid token" []
  \/ e = HTTPException 404 "User not found" []
  \/ e = TypeError
  \/ e = ValueError.
Proof.
  unfold reset_password_confirm.
  destruct (verify_password_reset_token settings t now) as [v|e0] eqn:Hv; simpl.
  2:{ intros [= <-]. left. unfold verify_password_reset_token in Hv.
      destruct (jwt_decode _ _ _ _ ≫= _); [done|]. by injection Hv as <-. }
  destruct (truthy v); simpl; [|intros [= <-]; right; by left].
  destruct (select_first _ db) as [user|]; [|intros [= <-]; right; right; by left].
  unfold get_password_hash.
  destruct (py_bytes new_password) as [b|e1] eqn:Hb; simpl.
  - destruct (hashpw b salt) as [h|e2] eqn:Hh; simpl; [done|].
    intros [= <-]. apply hashpw_raises in Hh as ->. by repeat right.
  - intros [= <-]. destruct new_password; simpl in Hb; try done;
      injection Hb as <-; right; right; right; by left.
Qed.
End MoreTokenFacts.

Lemma access_token_round_trip_witness :
  decode_token_data ref_settings
    (create_access_token ref_settings (id alice) UserRole_USER (Some 60) 1000) 1059
  = Ok {| sub := id alice; token_role := UserRole_USER |}.
Proof.
  exact (access_token_round_trip (H0 := ref_jwt) ref_settings (id alice) UserRole_USER
           (Some 60) 1000 1059 ltac:(discriminate)).
Defined.

Lemma reset_password_confirm_undecodable_witness :
  verify_password_reset_token ref_settings (Garbled "abc.def") 1000
  = Raise AttributeError
  /\ reset_password_confirm ref_settings [alice] (Garbled "abc.def")
       (VStr "newpass") 1000 salt_b
     = Raise AttributeError.
Proof.
  exact (reset_password_confirm_undecodable (H := ref_bcrypt) (H0 := ref_jwt)
           ref_settings [alice] (Garbled "abc.def") (VStr "newpass") 1000 salt_b
           (JWTException DecodeError) eq_refl).
Defined.

Lemma reset_password_confirm_raises_witness :
  reset_password_confirm ref_settings [alice]
    (generate_password_reset_token ref_settings (VStr "nobody@x.com") 1000)
    (VStr "newpass") 1001 salt_b
  = Raise (HTTPException 404 "User not found" [])
  /\ (HTTPException 404 "User not found" [] = AttributeError
      \/ HTTPException 404 "User not found" [] = HTTPException 400 "Invalid token" []
      \/ HTTPException 404 "User not found" [] = HTTPException 404 "User not found" []
      \/ HTTPException 404 "User not found" [] = TypeError
      \/ HTTPException 404 "User not found" [] = ValueError).
Proof.
  split; [reflexivity|].
  exact (reset_password_confirm_raises (H := ref_bcrypt) (H0 := ref_jwt)
           ref_settings [alice]
           (generate_password_reset_token ref_settings (VStr "nobody@x.com") 1000)
           (VStr "newpass") 1001 salt_b
           (HTTPException 404 "User not found" []) eq_refl).
Defined.

(** ** The guards *)

Section MoreGuardFacts.
Context `{Bcrypt} `{PyJWT} (settings : Settings).

Lemma get_current_user_In (db : DB) (t : token) (now : Z) (u : User) :
  get_current_user settings db t now = Ok u -> In u db.
Proof.
  intros Hg. apply get_current_user_Ok in Hg as (_ & td & _ & Hs).
  unfold select_first in Hs. by apply find_some in Hs as [Hin _].
Qed.

Lemma get_current_active_user_Ok (db : DB) (t : token) (now : Z) (u : User) :
  get_current_active_user settings db t now = Ok u
  <-> get_current_user settings db t now = Ok u.
Proof.
  unfold get_current_active_user. split.
  - destruct (get_current_user settings db t now) as [v|]; [simpl|done].
    by destruct (truthy (is_active v)).
  - intros Hg. rewrite Hg. simpl.
    apply get_current_user_Ok in Hg as [-> _]. done.
Qed.

(** What [get_current_user] returns is a row of the store whose id is the
    subject of a token that decodes, and it is active. *)
Theorem get_current_user_sound (db : DB) (t : token) (now : Z) (u : User) :
  get_current_user settings db t now = Ok u ->
  In u db
  /\ truthy (is_active u) = true
  /\ exists p, jwt_decode now t (SECRET_KEY settings) [ALGORITHM settings] = Ok p
               /\ p !! "sub" = Some (id u) /\ id u <> VNone.
Proof.
  intros Hg. apply get_current_user_Ok in Hg as (Ha & td & Hd & Hs).
  unfold select_first in Hs. apply find_some in Hs as [Hin Hid].
  apply bool_decide_eq_true_1 in Hid.
  split; [done|]. split; [done|].
  unfold decode_token_data in Hd.
  destruct (jwt_decode _ _ _ _) as [p|e]; [|by destruct e as [| | | | |j]; [..|destruct (is_DecodeError j)]].
  exists p. split; [done|].
  unfold dict_get in Hd. destruct (p !! "sub") as [v|] eqn:Hp; simpl in Hd; [|done].
  destruct (bool_decide (v = VNone)) eqn:Hv; [done|].
  injection Hd as <-. simpl in Hid. subst v.
  split; [done|]. by apply bool_decide_eq_false_1 in Hv.
Qed.

(** The second test of the active flag never fires: the dependency
    [get_current_active_user] is [get_current_user]. *)
Theorem get_current_active_user_is_get_current_user (db : DB) (t : token) (now : Z) :
  get_current_active_user settings db t now = get_current_user settings db t now.
Proof.
  unfold get_current_active_user.
  destruct (get_current_user settings db t now) as [u|e] eqn:Hg; [|done].
  apply get_current_user_Ok in Hg as [Ha _]. simpl. by rewrite Ha.
Qed.

(** [get_current_admin_user] returns only stored users that are active and
    whose role is exactly [UserRole.ADMIN]. *)
Theorem get_current_admin_user_sound (db : DB) (t : token) (now : Z) (u : User) :
  get_current_admin_user settings db t now = Ok u ->
  role u = UserRole_ADMIN /\ truthy (is_active u) = true /\ In u db
  /\ get_current_user settings db t now = Ok u.
Proof.
  unfold get_current_admin_user.
  destruct (get_current_user settings db t now) as [v|e] eqn:Hg; [|done]. simpl.
  destruct (bool_decide (role v = UserRole_ADMIN)) eqn:Hr; [|done]. simpl.
  intros [= ->]. apply bool_decide_eq_true_1 in Hr.
  pose proof (get_current_user_In _ _ _ _ Hg) as Hin.
  by apply get_current_user_Ok in Hg as [Ha _].
Qed.

(** With the token of an active user whose role is not [ADMIN], the three
    administrator operations raise 403, whatever they were asked to do;
    the two [/me] operations are not concerned. *)
Theorem admin_only_forbidden (req : guarded_request) (db : DB) (t : token) (now : Z)
    (u : User) :
  get_current_user settings db t now = Ok u ->
  role u <> UserRole_ADMIN ->
  admin_only req = true ->
  handle settings req db t now = Raise forbidden_exception.
Proof.
  intros Hg Hr Ha.
  assert (Hadm : get_current_admin_user settings db t now = Raise forbidden_exception).
  { unfold get_current_admin_user. rewrite Hg. simpl.
    by rewrite bool_decide_eq_false_2. }
  destruct req; try discriminate Ha; simpl;
    unfold read_users, read_user_by_id, update_user; by rewrite Hadm.
Qed.

(** A token on which [jwt.decode] raises [DecodeError] or one of its
    subclasses (a malformed token, a bad signature) gets the 401 of
    [credentials_exception] from every guarded operation, whatever the
    store holds. *)
Theorem undecodable_token_unauthenticated (req : guarded_request) (db : DB)
    (t : token) (now : Z) (e : jwt_error) :
  jwt_decode now t (SECRET_KEY settings) [ALGORITHM settings] = Raise (JWTException e) ->
  is_DecodeError e = true ->
  get_current_user settings db t now = Raise credentials_exception
  /\ handle settings req db t now = Raise credentials_exception.
Proof.
  intros Hd He.
  assert (Hg : get_current_user settings db t now = Raise credentials_exception).
  { unfold get_current_user.
    by rewrite (decode_token_data_DecodeError settings t now e Hd He). }
  split; [done|]. by apply handle_guard_raises.
Qed.
End MoreGuardFacts.

Lemma get_current_user_sound_witness :
  let t := create_access_token ref_settings (id alice) UserRole_USER None 1000 in
  In alice [alice; bob]
  /\ truthy (is_active alice) = true
  /\ exists p, jwt_decode 1001 t (SECRET_KEY ref_settings) [ALGORITHM ref_settings] = Ok p
               /\ p !! "sub" = Some (id alice) /\ id alice <> VNone.
Proof.
  exact (get_current_user_sound (H0 := ref_jwt) ref_settings [alice; bob]
           (create_access_token ref_settings (id alice) UserRole_USER None 1000)
           1001 alice eq_refl).
Defined.

Lemma get_current_admin_user_sound_witness :
  let t := create_access_token ref_settings (id carol) UserRole_ADMIN None 1000 in
  role carol = UserRole_ADMIN /\ truthy (is_active carol) = true
  /\ In carol [alice; carol]
  /\ get_current_user ref_settings [alice; carol] t 1001 = Ok carol.
Proof.
  exact (get_current_admin_user_sound (H0 := ref_jwt) ref_settings [alice; carol]
           (create_access_token ref_settings (id carol) UserRole_ADMIN None 1000)
           1001 carol eq_refl).
Defined.

Lemma admin_only_forbidden_witness :
  handle ref_settings (UpdateUser (id carol) rename_with_empty_password salt_b)
    [alice; carol]
    (create_access_token ref_settings (id alice) UserRole_USER None 1000) 1001
  = Raise forbidden_exception.
Proof.
  exact (admin_only_forbidden (H := ref_bcrypt) (H0 := ref_jwt) ref_settings
           (UpdateUser (id carol) rename_with_empty_password salt_b) [alice; carol]
           (create_access_token ref_settings (id alice) UserRole_USER None 1000) 1001
           alice eq_refl ltac:(discriminate) eq_refl).
Defined.

Lemma undecodable_token_unauthenticated_witness :
  get_current_user ref_settings [alice] (Signed ∅ "other-key" "HS256") 1000
  = Raise credentials_exception
  /\ handle ref_settings ReadUserMe [alice] (Signed ∅ "other-key" "HS256") 1000
     = Raise credentials_exception.
Proof.
  exact (undecodable_token_unauthenticated (H := ref_bcrypt) (H0 := ref_jwt)
           ref_settings ReadUserMe [alice] (Signed ∅ "other-key" "HS256") 1000
           InvalidSignatureError eq_refl eq_refl).
Defined.

(** ** Authentication and login *)

Section MoreAuthFacts.
Context `{Bcrypt} `{PyJWT} (settings : Settings).

Lemma authenticate_user_In (db : DB) (ident pw : pyval) (u : User) :
  authenticate_user db ident pw = Ok (Some u) -> In u db.
Proof.
  unfold authenticate_user.
  destruct (select_first _ db) as [v|] eqn:Hs; [|done].
  destruct (verify_password pw (hashed_password v)) as [[]|]; simpl; try done.
  intros [= ->]. unfold select_first in Hs. by apply find_some in Hs as [Hin _].
Qed.

(** [authenticate_user] never returns a user whose stored hash did not
    verify the password: the user it returns is stored, matches the
    identifier by email or by username, and [verify_password] answered
    true for it. *)
Theorem authenticate_user_sound (db : DB) (ident pw : pyval) (u : User) :
  authenticate_user db ident pw = Ok (Some u) ->
  In u db
  /\ (email u = ident \/ username u = ident)
  /\ verify_password pw (hashed_password u) = Ok true.
Proof.
  unfold authenticate_user.
  destruct (select_first _ db) as [v|] eqn:Hs; [|done].
  destruct (verify_password pw (hashed_password v)) as [[]|] eqn:Hv; simpl; try done.
  intros [= ->]. unfold select_first in Hs. apply find_some in Hs as [Hin Hm].
  split; [done|]. split; [|done].
  unfold matches_login in Hm. apply orb_prop in Hm as [Hm|Hm];
    apply bool_decide_eq_true_1 in Hm; auto.
Qed.

Lemma unique_ids_eq (db : DB) (u v : User) :
  unique_ids db -> In u db -> In v db -> id u = id v -> u = v.
Proof.
  unfold unique_ids. induction db as [|row db IH]; [done|].
  simpl. rewrite NoDup_cons. intros [Hnin Hnd] [->|Hu] [->|Hv] Hid; try done.
  - exfalso. apply Hnin. rewrite Hid. apply list_elem_of_In. by apply in_map.
  - exfalso. apply Hnin. rewrite <- Hid. apply list_elem_of_In. by apply in_map.
  - by apply IH.
Qed.

Lemma select_first_id (db : DB) (u : User) :
  unique_ids db -> In u db ->
  select_first (fun v => bool_decide (id v = id u)) db = Some u.
Proof.
  intros Hnd Hin. apply select_first_unique; [done|by apply bool_decide_eq_true_2|].
  intros v Hv Hb. apply bool_decide_eq_true_1 in Hb. by eapply unique_ids_eq.
Qed.

(** The ttl the two handlers pass is the configured one, so the expiry is
    issue time plus that many minutes also when it is zero. *)
Lemma access_token_expire_configured (now : Z) :
  access_token_expire settings
    (Some (minutes (ACCESS_TOKEN_EXPIRE_MINUTES settings))) now
  = now + minutes (ACCESS_TOKEN_EXPIRE_MINUTES settings).
Proof.
  unfold access_token_expire.
  destruct (Z.eqb_spec (minutes (ACCESS_TOKEN_EXPIRE_MINUTES settings)) 0); simpl; lia.
Qed.

(** Login, then the guard: in a store whose ids are texts, no two alike,
    the token that [login_access_token] returns is a bearer token with
    which [get_current_user] finds the very user that was authenticated,
    at any time before the configured minutes have passed. *)
Theorem login_token_resolves (db : DB) (ident pw : pyval) (now now' : Z)
    (t : token) (ty : string) :
  ids_are_text db -> unique_ids db ->
  login_access_token settings db ident pw now = Ok (RToken t ty) ->
  now' < now + minutes (ACCESS_TOKEN_EXPIRE_MINUTES settings) ->
  ty = "bearer"
  /\ exists u, authenticate_user db ident pw = Ok (Some u)
               /\ get_current_user settings db t now' = Ok u.
Proof.
  intros Htxt Hnd Hl Hlt. unfold login_access_token in Hl.
  destruct (authenticate_user db ident pw) as [[u|]|] eqn:Ha; simpl in Hl; try done.
  destruct (truthy (is_active u)) eqn:Hact; simpl in Hl; [|done].
  injection Hl as <- <-. split; [done|]. exists u. split; [done|].
  apply authenticate_user_In in Ha as Hin.
  destruct (proj1 (Forall_forall _ _) Htxt u ltac:(by apply list_elem_of_In))
    as [sid Hsid].
  unfold get_current_user.
  rewrite decode_token_data_before_expiry
    by (by rewrite access_token_expire_configured).
  simpl. rewrite Hsid. simpl. rewrite <- Hsid.
  rewrite (select_first_id db u Hnd Hin). by rewrite Hact.
Qed.

(** The answer to a reset request does not tell whether the email is
    known: it is the same message either way.  A token is made exactly
    when some stored user has that email. *)
Theorem request_password_reset_uniform (db : DB) (body_email : pyval) (now : Z) :
  fst (request_password_reset settings db body_email now)
  = RMsg "Password reset email sent"
  /\ (is_Some (snd (request_password_reset settings db body_email now))
      <-> exists u, In u db /\ email u = body_email).
Proof.
  unfold request_password_reset.
  destruct (select_first _ db) as [u|] eqn:Hs; simpl.
  - split; [done|]. split; [|by eauto].
    intros _. unfold select_first in Hs. apply find_some in Hs as [Hin Hb].
    apply bool_decide_eq_true_1 in Hb. eauto.
  - split; [done|]. split; [by intros [? [=]]|].
    intros (u & Hin & He). unfold select_first in Hs.
    pose proof (find_none _ _ Hs u Hin) as Hb. simpl in Hb.
    by rewrite bool_decide_eq_true_2 in Hb.
Qed.

(** Frame of a successful reset, in a store with distinct ids: the answer
    is the success message and one stored row is rewritten, the one of the
    user whose email the token carries; of that row the hash becomes the
    blob of the new password and [updated_at] the time of the commit, its
    other columns are kept; the other rows, and the order of rows, are
    unchanged. *)
Theorem reset_password_confirm_frame (db db' : DB) (t : token) (new_password : pyval)
    (now : Z) (salt : list byte) (r : response) :
  unique_ids db ->
  reset_password_confirm settings db t new_password now salt = Ok (db', r) ->
  r = RMsg "Password updated successfully"
  /\ exists user h,
       In user db
       /\ verify_password_reset_token settings t now = Ok (email user)
       /\ get_password_hash new_password salt = Ok h
       /\ db' = map (fun row =>
                       if bool_decide (row = user)
                       then (if bool_decide (h = hashed_password user) then user
                             else with_updated_at (VInt now)
                                    (with_hashed_password h user))
                       else row) db.
Proof.
  intros Hnd. unfold reset_password_confirm.
  destruct (verify_password_reset_token settings t now) as [e|] eqn:Hv; [|done].
  simpl. destruct (truthy e); simpl; [|done].
  destruct (select_first _ db) as [user|] eqn:Hs; [|done].
  destruct (get_password_hash new_password salt) as [h|] eqn:Hh; [|done].
  simpl. intros [= <- <-]. split; [done|].
  unfold select_first in Hs. apply find_some in Hs as [Hin Hb].
  apply bool_decide_eq_true_1 in Hb. subst e.
  exists user, h. repeat split; try done.
  unfold db_commit. apply map_ext_in. intros row Hrow.
  destruct (bool_decide (id row = id user)) eqn:Hid.
  - apply bool_decide_eq_true_1 in Hid.
    assert (row = user) as -> by (by eapply unique_ids_eq).
    rewrite (bool_decide_eq_true_2 (user = user)) by done.
    unfold flush_update. destruct user as [ui uc um ue un uh ua ur]. simpl.
    destruct (decide (h = uh)) as [->|Hne].
    + by rewrite !bool_decide_eq_true_2.
    + rewrite (bool_decide_eq_false_2 (h = uh)) by done.
      rewrite bool_decide_eq_false_2 by (intros [=]; done).
      by rewrite bool_decide_eq_true_2.
  - apply bool_decide_eq_false_1 in Hid.
    rewrite bool_decide_eq_false_2; [done|]. by intros ->.
Qed.
End MoreAuthFacts.

Lemma authenticate_user_sound_witness :
  In alice [alice; bob]
  /\ (email alice = VStr "a@x.com" \/ username alice = VStr "a@x.com")
  /\ verify_password (VStr "secret1") (hashed_password alice) = Ok true.
Proof.
  exact (authenticate_user_sound (H := ref_bcrypt) [alice; bob] (VStr "a@x.com")
           (VStr "secret1") alice eq_refl).
Defined.

Ltac decide_closed :=
  match goal with
  | |- ?P => apply (@bool_decide_unpack P _); vm_compute; exact I
  end.

Lemma login_token_resolves_witness :
  exists u, authenticate_user [alice; bob] (VStr "a") (VStr "secret1") = Ok (Some u)
            /\ get_current_user ref_settings [alice; bob]
                 (create_access_token ref_settings (id alice) (role alice)
                    (Some 1800) 1000) 1700
               = Ok u.
Proof.
  exact (proj2 (login_token_resolves (H := ref_bcrypt) (H0 := ref_jwt) ref_settings
           [alice; bob] (VStr "a") (VStr "secret1") 1000 1700
           (create_access_token ref_settings (id alice) (role alice) (Some 1800) 1000)
           "bearer"
           ltac:(repeat constructor; eexists; reflexivity)
           ltac:(decide_closed) eq_refl eq_refl)).
Defined.

Lemma reset_password_confirm_frame_witness :
  exists user h,
    In user [alice; bob]
    /\ verify_password_reset_token ref_settings
         (generate_password_reset_token ref_settings (VStr "b@x.com") 1000) 1001
       = Ok (email user)
    /\ get_password_hash (VStr "newpass") salt_b = Ok h
    /\ [alice; with_updated_at (VInt 1001)
                 (with_hashed_password
                    (VBytes (salt_b ++ list_byte_of_string "newpass")%list) bob)]
       = map (fun row =>
                if bool_decide (row = user)
                then (if bool_decide (h = hashed_password user) then user
                      else with_updated_at (VInt 1001) (with_hashed_password h user))
                else row) [alice; bob].
Proof.
  exact (proj2 (reset_password_confirm_frame (H := ref_bcrypt) (H0 := ref_jwt)
           ref_settings [alice; bob] _
           (generate_password_reset_token ref_settings (VStr "b@x.com") 1000)
           (VStr "newpass") 1001 salt_b _
           ltac:(decide_closed) eq_refl)).
Defined.

(** ** Registration and the initial administrator *)

Section RegistrationFacts.
Context `{Bcrypt} `{PyJWT} (settings : Settings).

Lemma select_first_app (cond : User -> bool) (l1 l2 : DB) :
  select_first cond (l1 ++ l2)%list
  = match select_first cond l1 with
    | Some u => Some u
    | None => select_first cond l2
    end.
Proof.
  unfold select_first. induction l1 as [|row l1 IH]; [done|].
  simpl. by destruct (cond row).
Qed.

Lemma select_first_None (cond : User -> bool) (db : DB) :
  select_first cond db = None <-> forall u, In u db -> cond u = false.
Proof.
  unfold select_first. split.
  - intros Hn u Hin. by apply (find_none _ _ Hn).
  - induction db as [|row db IH]; [done|]. intros Hall. simpl.
    rewrite (Hall row (or_introl eq_refl)). apply IH. intros u Hu.
    apply Hall. by right.
Qed.

Lemma select_first_is_Some (cond : User -> bool) (db : DB) (u : User) :
  In u db -> cond u = true -> exists v, select_first cond db = Some v.
Proof.
  intros Hin Hc. destruct (select_first cond db) as [v|] eqn:Hs; [eauto|].
  rewrite (proj1 (select_first_None cond db) Hs u Hin) in Hc. discriminate.
Qed.

(** Registration refuses an email, then a username, that a stored user
    already has, before anything is hashed or stored; the email is looked
    at first. *)
Theorem register_user_duplicate (db : DB) (user_in : UserCreate) (new_id : pyval)
    (now : Z) (salt : list byte) :
  ((exists u, In u db /\ email u = uc_email user_in) ->
   register_user settings db user_in new_id now salt
   = Raise (HTTPException 400 "User with this email already exists" []))
  /\ ((forall u, In u db -> email u <> uc_email user_in) ->
      (exists u, In u db /\ username u = uc_username user_in) ->
      register_user settings db user_in new_id now salt
      = Raise (HTTPException 400 "User with this username already exists" [])).
Proof.
  unfold register_user. split.
  - intros (u & Hin & He).
    destruct (select_first_is_Some (fun v => bool_decide (email v = uc_email user_in))
                db u Hin) as [v ->]; [simpl; by apply bool_decide_eq_true_2|done].
  - intros Hne (u & Hin & Hu).
    rewrite (proj2 (select_first_None _ db)).
    2:{ intros v Hv. apply bool_decide_eq_false_2. by apply Hne. }
    destruct (select_first_is_Some
                (fun v => bool_decide (username v = uc_username user_in))
                db u Hin) as [v ->]; [simpl; by apply bool_decide_eq_true_2|done].
Qed.

(** What a successful registration did. *)
Lemma register_user_Ok (db db' : DB) (user_in : UserCreate) (new_id : pyval)
    (now : Z) (salt : list byte) (r : response) :
  register_user settings db user_in new_id now salt = Ok (db', r) ->
  exists h,
    get_password_hash (uc_password user_in) salt = Ok h
    /\ (forall u, In u db -> email u <> uc_email user_in)
    /\ (forall u, In u db -> username u <> uc_username user_in)
    /\ db' = (db ++ [new_user new_id now (uc_email user_in) (uc_username user_in) h
                              (uc_role user_in)])%list
    /\ r = RToken (create_access_token settings new_id (uc_role user_in)
                     (Some (minutes (ACCESS_TOKEN_EXPIRE_MINUTES settings))) now)
                  "bearer".
Proof.
  unfold register_user.
  destruct (select_first _ db) eqn:He; [done|].
  destruct (select_first (fun u => bool_decide (username u = _)) db) eqn:Hu; [done|].
  destruct (get_password_hash _ salt) as [h|]; [|done]. simpl.
  intros [= <- <-]. exists h. repeat split; try done.
  - intros u Hin. pose proof (proj1 (select_first_None _ db) He u Hin) as Hb.
    simpl in Hb. by apply bool_decide_eq_false_1 in Hb.
  - intros u Hin. pose proof (proj1 (select_first_None _ db) Hu u Hin) as Hb.
    simpl in Hb. by apply bool_decide_eq_false_1 in Hb.
Qed.

(** Registration keeps the store's emails pairwise distinct, and its
    usernames; it adds one row at the end and touches no other. *)
Theorem register_user_keeps_unique (db db' : DB) (user_in : UserCreate)
    (new_id : pyval) (now : Z) (salt : list byte) (r : response) :
  unique_emails db -> unique_usernames db ->
  register_user settings db user_in new_id now salt = Ok (db', r) ->
  unique_emails db' /\ unique_usernames db'
  /\ length db' = S (length db) /\ take (length db) db' = db.
Proof.
  unfold unique_emails, unique_usernames. intros He Hu Hr.
  apply register_user_Ok in Hr as (h & _ & Hne & Hnu & -> & _).
  rewrite !map_app. simpl. repeat split.
  - apply NoDup_app. split; [done|]. split; [|apply NoDup_singleton].
    intros e Hin Hin'. apply list_elem_of_singleton in Hin' as ->.
    apply list_elem_of_In, in_map_iff in Hin as (u & Heq & Hin). by apply (Hne u).
  - apply NoDup_app. split; [done|]. split; [|apply NoDup_singleton].
    intros e Hin Hin'. apply list_elem_of_singleton in Hin' as ->.
    apply list_elem_of_In, in_map_iff in Hin as (u & Heq & Hin). by apply (Hnu u).
  - rewrite length_app. simpl. lia.
  - by rewrite take_app_length.
Qed.

(** The token of a registration opens the new account right away: with a
    fresh id that is a text, [get_current_user] returns the new row, which
    is active whatever [is_active] the request carried and has the role
    the request asked for; so [get_current_admin_user] accepts the token
    exactly when that role is [ADMIN]. *)
Theorem register_user_token_resolves (db db' : DB) (user_in : UserCreate)
    (sid : string) (now now' : Z) (salt : list byte) (t : token) (ty : string) :
  (forall u, In u db -> id u <> VStr sid) ->
  register_user settings db user_in (VStr sid) now salt = Ok (db', RToken t ty) ->
  now' < now + minutes (ACCESS_TOKEN_EXPIRE_MINUTES settings) ->
  exists u,
    get_current_user settings db' t now' = Ok u
    /\ In u db' /\ id u = VStr sid
    /\ email u = uc_email user_in /\ username u = uc_username user_in
    /\ role u = uc_role user_in /\ is_active u = VBool true
    /\ get_current_admin_user settings db' t now'
       = if bool_decide (uc_role user_in = UserRole_ADMIN) then Ok u
         else Raise forbidden_exception.
Proof.
  intros Hfresh Hr Hlt.
  apply register_user_Ok in Hr as (h & _ & _ & _ & -> & Ht).
  injection Ht as -> ->.
  set (u := new_user (VStr sid) now (uc_email user_in) (uc_username user_in) h
                     (uc_role user_in)).
  assert (Hg : get_current_user settings (db ++ [u])%list
                 (create_access_token settings (VStr sid) (uc_role user_in)
                    (Some (minutes (ACCESS_TOKEN_EXPIRE_MINUTES settings))) now) now'
               = Ok u).
  { unfold get_current_user.
    rewrite decode_token_data_before_expiry
      by (by rewrite access_token_expire_configured).
    simpl. rewrite select_first_app.
    rewrite (proj2 (select_first_None _ db)).
    2:{ intros v Hv. apply bool_decide_eq_false_2. by apply Hfresh. }
    simpl. by rewrite bool_decide_eq_true_2. }
  exists u. split; [done|]. split; [apply in_or_app; right; by left|].
  repeat split; try done.
  unfold get_current_admin_user. rewrite Hg. simpl.
  by destruct (bool_decide (uc_role user_in = UserRole_ADMIN)).
Qed.

(** The start-up seeding is idempotent: after a run that returned, some
    stored user is an administrator, and a second run, whatever id, time
    and salt it draws, leaves the store as it is.  A store that already
    has an administrator is not touched by the first run either. *)
Theorem create_initial_admin_idempotent (db db1 : DB) (id1 id2 : pyval)
    (now1 now2 : Z) (salt1 salt2 : list byte) :
  create_initial_admin db id1 now1 salt1 = Ok db1 ->
  (exists u, In u db1 /\ role u = UserRole_ADMIN)
  /\ create_initial_admin db1 id2 now2 salt2 = Ok db1
  /\ ((exists u, In u db /\ role u = UserRole_ADMIN) -> db1 = db).
Proof.
  unfold create_initial_admin at 1.
  destruct (select_first _ db) as [a|] eqn:Hs.
  - intros [= <-]. pose proof Hs as Hs'.
    unfold select_first in Hs'. apply find_some in Hs' as [Hin Hb].
    apply bool_decide_eq_true_1 in Hb.
    split; [eauto|]. split; [|done]. unfold create_initial_admin. by rewrite Hs.
  - destruct (get_password_hash (VStr "admin") salt1) as [h|]; [|done]. simpl.
    intros [= <-]. split; [|split].
    + eexists. split; [apply in_or_app; right; by left|done].
    + unfold create_initial_admin, db_insert. rewrite select_first_app, Hs. done.
    + intros (u & Hin & Hr).
      pose proof (proj1 (select_first_None _ db) Hs u Hin) as Hb. simpl in Hb.
      by rewrite bool_decide_eq_true_2 in Hb.
Qed.
End RegistrationFacts.

Lemma register_user_duplicate_witness :
  register_user ref_settings [alice; dora] dave_in dave_id 1000 salt_b
  = Raise (HTTPException 400 "User with this email already exists" [])
  /\ register_user ref_settings [alice; dan] dave_in dave_id 1000 salt_b
     = Raise (HTTPException 400 "User with this username already exists" []).
Proof.
  split.
  - apply (proj1 (register_user_duplicate (H := ref_bcrypt) (H0 := ref_jwt)
                    ref_settings [alice; dora] dave_in dave_id 1000 salt_b)).
    exists dora. split; [right; left; reflexivity | reflexivity].
  - apply (proj2 (register_user_duplicate (H := ref_bcrypt) (H0 := ref_jwt)
                    ref_settings [alice; dan] dave_in dave_id 1000 salt_b)).
    + intros u [<-|[<-|[]]]; discriminate.
    + exists dan. split; [right; left; reflexivity | reflexivity].
Defined.

Lemma register_user_keeps_unique_witness :
  let db' := [alice; bob;
              new_user dave_id 1000 (VStr "d@x.com") (VStr "d")
                (VBytes (salt_b ++ list_byte_of_string "secret4")%list)
                UserRole_USER] in
  unique_emails db' /\ unique_usernames db'
  /\ length db' = 3%nat /\ take 2 db' = [alice; bob].
Proof.
  exact (register_user_keeps_unique (H := ref_bcrypt) (H0 := ref_jwt) ref_settings
           [alice; bob] _ dave_in dave_id 1000 salt_b _
           ltac:(decide_closed) ltac:(decide_closed) eq_refl).
Defined.

Lemma register_user_token_resolves_witness :
  let db' := [alice;
              new_user dave_id 1000 (VStr "d@x.com") (VStr "d")
                (VBytes (salt_b ++ list_byte_of_string "secret4")%list)
                UserRole_ADMIN] in
  let t := create_access_token ref_settings dave_id UserRole_ADMIN (Some 1800) 1000 in
  exists u,
    get_current_user ref_settings db' t 1001 = Ok u
    /\ In u db' /\ id u = dave_id
    /\ email u = VStr "d@x.com" /\ username u = VStr "d"
    /\ role u = UserRole_ADMIN /\ is_active u = VBool true
    /\ get_current_admin_user ref_settings db' t 1001 = Ok u.
Proof.
  exact (register_user_token_resolves (H := ref_bcrypt) (H0 := ref_jwt) ref_settings
           [alice] _ dave_admin_in "3f2504e0-4f89-41d3-9a0c-0305e82c3301" 1000 1001
           salt_b _ "bearer"
           ltac:(intros u [<-|[]]; discriminate) eq_refl eq_refl).
Defined.

Lemma create_initial_admin_idempotent_witness :
  let db1 := [alice;
              new_user dave_id 1000 (VStr "admin@amref.com") (VStr "admin")
                (VBytes (salt_a ++ list_byte_of_string "admin")%list)
                UserRole_ADMIN] in
  (exists u, In u db1 /\ role u = UserRole_ADMIN)
  /\ create_initial_admin db1 (id bob) 2000 salt_b = Ok db1
  /\ ((exists u, In u [alice] /\ role u = UserRole_ADMIN) -> db1 = [alice]).
Proof.
  exact (create_initial_admin_idempotent (H := ref_bcrypt) [alice] _
           dave_id (id bob) 1000 2000 salt_a salt_b eq_refl).
Defined.

(** ** Updates and reads *)

Section MoreUpdateFacts.
Context `{Bcrypt} `{PyJWT} (settings : Settings).

(** What the shared body of the two update handlers computes: with no
    password in the request, the row asked for with the stored hash kept;
    with a password that is true, the row asked for with the hasher's blob
    for hash; with a password that is false, [ValueError]. *)
Lemma apply_update_eq (user : User) (user_in : UserUpdate) (salt : list byte) :
  apply_update user user_in salt
  = match in_password user_in with
    | None => Ok (updated user user_in (hashed_password user))
    | Some pw =>
        if truthy pw then
          h ← get_password_hash pw salt; Ok (updated user user_in h)
        else Raise ValueError
    end.
Proof.
  destruct user as [ui uc um ue un uh ua ur].
  destruct user_in as [i c m e n a r [pw|]];
    unfold apply_update, hash_password_field, updated; cbn [in_password].
  - destruct i, c, m, e, n, a, r;
      (change (odict_get _ "password") with (Some pw);
       cbv iota beta;
       destruct (truthy pw); [destruct (get_password_hash pw salt)|];
       reflexivity).
  - destruct i, c, m, e, n, a, r; reflexivity.
Qed.

Lemma apply_update_Ok (user user' : User) (user_in : UserUpdate) (salt : list byte) :
  apply_update user user_in salt = Ok user' ->
  exists h,
    user' = updated user user_in h
    /\ match in_password user_in with
       | None => h = hashed_password user
       | Some pw => truthy pw = true /\ get_password_hash pw salt = Ok h
       end.
Proof.
  rewrite apply_update_eq. destruct (in_password user_in) as [pw|].
  - destruct (truthy pw); [|done].
    destruct (get_password_hash pw salt) as [h|] eqn:Hh; [|done].
    simpl. intros [= <-]. eauto.
  - intros [= <-]. eauto.
Qed.

Lemma update_user_me_inv (db db' : DB) (user_in : UserUpdate) (t : token)
    (now : Z) (salt : list byte) (r : response) :
  update_user_me settings db user_in t now salt = Ok (db', r) ->
  exists current_user user',
    get_current_user settings db t now = Ok current_user
    /\ check_unused db (default VNone (in_email user_in)) (email current_user) email
         "Email already registered" = Ok tt
    /\ apply_update current_user user_in salt = Ok user'
    /\ r = RUser (flush_update now current_user user')
    /\ db' = db_commit now (id current_user) user' db.
Proof.
  unfold update_user_me.
  destruct (get_current_active_user settings db t now) as [cu|] eqn:Hg; [simpl|done].
  apply get_current_active_user_Ok in Hg.
  destruct (check_unused db _ _ email _) as [[]|] eqn:Hc; [simpl|done].
  destruct (check_unused db _ _ username _); [simpl|done].
  destruct (apply_update cu user_in salt) as [u'|] eqn:Ha; [simpl|done].
  intros [= <- <-]. eauto 10.
Qed.

(** What a successful [update_user_me] did: the object loaded for the
    caller by [get_current_user] got every field of the request assigned,
    the others left as loaded, and its hash changed only through the
    hasher, for a password that is true; the commit wrote it over the
    caller's row, stamping [updated_at] with the time of the commit unless
    nothing changed or the request set [updated_at] itself; the answer is
    that row read back. *)
Theorem update_user_me_applies (db db' : DB) (user_in : UserUpdate) (t : token)
    (now : Z) (salt : list byte) (r : response) :
  update_user_me settings db user_in t now salt = Ok (db', r) ->
  exists current_user h,
    get_current_user settings db t now = Ok current_user
    /\ r = RUser (flush_update now current_user (updated current_user user_in h))
    /\ db' = db_commit now (id current_user) (updated current_user user_in h) db
    /\ match in_password user_in with
       | None => h = hashed_password current_user
       | Some pw => truthy pw = true /\ get_password_hash pw salt = Ok h
       end.
Proof.
  intros Hu. apply update_user_me_inv in Hu as (cu & u' & Hg & _ & Ha & -> & ->).
  apply apply_update_Ok in Ha as (h & -> & Hp). eauto 10.
Qed.

Lemma check_unused_taken (db : DB) (v current : pyval) (column : User -> pyval)
    (detail : string) (other : User) :
  truthy v = true -> v <> current -> In other db -> column other = v ->
  check_unused db v current column detail = Raise (HTTPException 400 detail []).
Proof.
  intros Ht Hne Hin Ho. unfold check_unused. rewrite Ht. simpl.
  rewrite bool_decide_eq_false_2 by done. simpl.
  destruct (select_first_is_Some (fun u => bool_decide (column u = v)) db other Hin)
    as [w ->]; [simpl; by apply bool_decide_eq_true_2|done].
Qed.

(** [update_user_me] refuses an email that is true, differs from the
    caller's and belongs to a stored user, and then a username in the same
    situation. *)
Theorem update_user_me_taken (db : DB) (user_in : UserUpdate) (t : token) (now : Z)
    (salt : list byte) (current_user other : User) (v : pyval) :
  get_current_user settings db t now = Ok current_user ->
  In other db -> truthy v = true ->
  (in_email user_in = Some v -> v <> email current_user -> email other = v ->
   update_user_me settings db user_in t now salt
   = Raise (HTTPException 400 "Email already registered" []))
  /\ (in_email user_in = None ->
      in_username user_in = Some v -> v <> username current_user ->
      username other = v ->
      update_user_me settings db user_in t now salt
      = Raise (HTTPException 400 "Username already registered" [])).
Proof.
  intros Hg Hin Ht. unfold update_user_me.
  rewrite (proj2 (get_current_active_user_Ok settings db t now current_user) Hg).
  simpl. split.
  - intros -> Hne Ho. change (default VNone (Some v)) with v.
    by rewrite (check_unused_taken db v _ email _ other).
  - intros -> -> Hne Ho. change (default VNone (Some v)) with v.
    change (check_unused db (default VNone None) (email current_user) email
              "Email already registered") with (@Ok unit tt).
    simpl. by rewrite (check_unused_taken db v _ username _ other).
Qed.

Lemma flush_update_id (now : Z) (loaded user : User) :
  id (flush_update now loaded user) = id user.
Proof.
  pose proof (flush_update_columns now loaded user) as Hc.
  by apply (f_equal id) in Hc.
Qed.

Lemma flush_update_role (now : Z) (loaded user : User) :
  role (flush_update now loaded user) = role user.
Proof.
  pose proof (flush_update_columns now loaded user) as Hc.
  by apply (f_equal role) in Hc.
Qed.

Lemma flush_update_is_active (now : Z) (loaded user : User) :
  is_active (flush_update now loaded user) = is_active user.
Proof.
  pose proof (flush_update_columns now loaded user) as Hc.
  by apply (f_equal is_active) in Hc.
Qed.

Lemma db_commit_unique (now : Z) (db : DB) (user user' : User) :
  unique_ids db -> In user db ->
  db_commit now (id user) user' db
  = map (fun row => if bool_decide (row = user) then flush_update now user user'
                    else row) db.
Proof.
  intros Hnd Hin. unfold db_commit. apply map_ext_in. intros row Hrow.
  destruct (bool_decide (id row = id user)) eqn:Hid.
  - apply bool_decide_eq_true_1 in Hid.
    assert (row = user) as -> by (by eapply unique_ids_eq).
    by rewrite bool_decide_eq_true_2.
  - apply bool_decide_eq_false_1 in Hid.
    rewrite bool_decide_eq_false_2; [done|]. by intros ->.
Qed.

Lemma NoDup_replace (f : User -> pyval) (db : DB) (user user' : User) :
  NoDup (map f db) -> In user db ->
  f user' = f user \/ (forall v, In v db -> f v <> f user') ->
  NoDup (map f (map (fun row => if bool_decide (row = user) then user' else row) db)).
Proof.
  induction db as [|row db IH]; [done|].
  simpl. rewrite !NoDup_cons. intros [Hnin Hnd] Hin Hf.
  assert (Hrest : forall v, In v db -> f v <> f row).
  { intros v Hv Heq. apply Hnin. rewrite <- Heq.
    apply list_elem_of_In. by apply in_map. }
  destruct (bool_decide (row = user)) eqn:Hr.
  - apply bool_decide_eq_true_1 in Hr. subst row.
    assert (Hmap : map (fun row => if bool_decide (row = user) then user' else row) db
                   = db).
    { rewrite <- (map_id db) at 2. apply map_ext_in. intros v Hv.
      rewrite bool_decide_eq_false_2; [done|]. intros ->. by apply (Hrest user). }
    rewrite Hmap. split; [|done].
    intros Hel. apply list_elem_of_In, in_map_iff in Hel as (v & Hfv & Hv).
    destruct Hf as [Hf|Hf].
    + apply (Hrest v Hv). congruence.
    + apply (Hf v); [by right|done].
  - apply bool_decide_eq_false_1 in Hr.
    destruct Hin as [Hin|Hin]; [done|]. split.
    + intros Hel. apply list_elem_of_In, in_map_iff in Hel as (w & Hfw & Hw).
      apply in_map_iff in Hw as (v & Hvw & Hv).
      destruct (bool_decide (v = user)); subst w.
      * destruct Hf as [Hf|Hf].
        -- apply (Hrest user Hin). congruence.
        -- apply (Hf row); [by left|done].
      * by apply (Hrest v Hv).
    + apply IH; [done..|]. destruct Hf as [Hf|Hf]; [by left|right].
      intros v Hv. apply Hf. by right.
Qed.

(** [update_user_me] keeps the emails of the store pairwise distinct, in a
    store with distinct ids, when the request leaves the email alone or
    sends one that is true: the handler's own look-up is enough. *)
Theorem update_user_me_keeps_unique_emails (db db' : DB) (user_in : UserUpdate)
    (t : token) (now : Z) (salt : list byte) (r : response) :
  unique_ids db -> unique_emails db ->
  (forall v, in_email user_in = Some v -> truthy v = true) ->
  update_user_me settings db user_in t now salt = Ok (db', r) ->
  unique_emails db'.
Proof.
  intros Hids Hem Htrue Hu.
  apply update_user_me_inv in Hu as (cu & u' & Hg & Hc & Ha & _ & ->).
  apply apply_update_Ok in Ha as (h & -> & _).
  pose proof (get_current_user_In settings db t now cu Hg) as Hin.
  rewrite (db_commit_unique now db cu _ Hids Hin).
  apply NoDup_replace; [done..|]. rewrite flush_update_email.
  unfold updated. simpl. destruct (in_email user_in) as [v|] eqn:He; [|by left].
  simpl in *. unfold check_unused in Hc. rewrite (Htrue v eq_refl) in Hc. simpl in Hc.
  destruct (bool_decide (v = email cu)) eqn:Hv; simpl in Hc.
  - left. by apply bool_decide_eq_true_1 in Hv.
  - right. destruct (select_first _ db) eqn:Hs; [done|].
    intros w Hw. pose proof (proj1 (select_first_None _ db) Hs w Hw) as Hb.
    simpl in Hb. by apply bool_decide_eq_false_1 in Hb.
Qed.

Lemma select_first_id_db_commit (now : Z) (k : pyval) (user user' : User) (db : DB) :
  select_first (fun u => bool_decide (id u = k)) db = Some user ->
  id user' = k ->
  select_first (fun u => bool_decide (id u = k)) (db_commit now (id user) user' db)
  = Some (flush_update now user user').
Proof.
  unfold select_first, db_commit. intros Hs Hk.
  assert (Hu : id user = k).
  { apply find_some in Hs as [_ Hb]. by apply bool_decide_eq_true_1 in Hb. }
  induction db as [|row db IH]; [done|].
  simpl in *. destruct (bool_decide (id row = k)) eqn:Hr.
  - injection Hs as ->.
    rewrite (bool_decide_eq_true_2 (id user = id user)) by done.
    rewrite (bool_decide_eq_true_2 (id (flush_update now user user') = k));
      [done|]. by rewrite flush_update_id.
  - apply bool_decide_eq_false_1 in Hr.
    rewrite (bool_decide_eq_false_2 (id row = id user)) by congruence.
    rewrite (bool_decide_eq_false_2 (id row = k)) by done. by apply IH.
Qed.

(** The role is a field like the others for [update_user_me]: when the
    request sets it (and leaves the id alone and the account active), the
    caller's row has that role afterwards and the same token resolves to
    it; [get_current_admin_user] then accepts the token exactly when the
    role sent is [ADMIN]. *)
Theorem update_user_me_sets_own_role (db db' : DB) (user_in : UserUpdate) (t : token)
    (now : Z) (salt : list byte) (r : response) (new_role : pyval) :
  in_id user_in = None ->
  in_role user_in = Some new_role ->
  (forall a, in_is_active user_in = Some a -> truthy a = true) ->
  update_user_me settings db user_in t now salt = Ok (db', r) ->
  exists user',
    r = RUser user' /\ role user' = new_role
    /\ get_current_user settings db' t now = Ok user'
    /\ get_current_admin_user settings db' t now
       = if bool_decide (new_role = UserRole_ADMIN) then Ok user'
         else Raise forbidden_exception.
Proof.
  intros Hid Hrole Hact Hu.
  apply update_user_me_inv in Hu as (cu & u0 & Hg & _ & Ha & -> & ->).
  apply apply_update_Ok in Ha as (h & -> & _).
  set (u' := flush_update now cu (updated cu user_in h)).
  assert (Hr : role u' = new_role).
  { unfold u'. rewrite flush_update_role. unfold updated. simpl. by rewrite Hrole. }
  assert (Hi : id (updated cu user_in h) = id cu)
    by (unfold updated; simpl; by rewrite Hid).
  assert (Ha : truthy (is_active u') = true).
  { unfold u'. rewrite flush_update_is_active. unfold updated. simpl.
    destruct (in_is_active user_in) as [a|]; simpl.
    - by apply Hact.
    - by apply get_current_user_Ok in Hg as [? _]. }
  assert (Hg' : get_current_user settings
                  (db_commit now (id cu) (updated cu user_in h) db) t now = Ok u').
  { apply get_current_user_Ok in Hg as (_ & td & Hd & Hs).
    unfold get_current_user. rewrite Hd. simpl.
    rewrite (select_first_id_db_commit now (sub td) cu (updated cu user_in h) db Hs).
    - fold u'. by rewrite Ha.
    - rewrite Hi. unfold select_first in Hs. apply find_some in Hs as [_ Hb].
      by apply bool_decide_eq_true_1 in Hb. }
  exists u'. repeat split; try done.
  unfold get_current_admin_user. rewrite Hg'. unfold mbind, result_bind.
  rewrite Hr. by destruct (bool_decide (new_role = UserRole_ADMIN)).
Qed.

(** The three reading operations return the store they were given. *)
Theorem read_only_keeps_store (req : guarded_request) (db db' : DB) (t : token)
    (now : Z) (r : response) :
  read_only req = true ->
  handle settings req db t now = Ok (db', r) ->
  db' = db.
Proof.
  intros Hro. destruct req; try discriminate Hro; simpl;
    unfold read_user_me, read_users, read_user_by_id.
  - destruct (get_current_active_user settings db t now); [simpl|done].
    by intros [= <- _].
  - destruct (get_current_admin_user settings db t now); [simpl|done].
    by intros [= <- _].
  - destruct (get_current_admin_user settings db t now); [simpl|done].
    destruct (db_get db user_id); [|done]. by intros [= <- _].
Qed.

(** [read_users] answers with stored rows, at most [limit] of them and at
    most what is left of the table after [skip] rows, in table order. *)
Theorem read_users_bounds (db db' : DB) (skip limit : Z) (t : token) (now : Z)
    (r : response) :
  0 <= skip -> 0 <= limit ->
  read_users settings db skip limit t now = Ok (db', r) ->
  exists users,
    r = RUsers users
    /\ (length users <= Z.to_nat limit)%nat
    /\ (length users <= length db - Z.to_nat skip)%nat
    /\ (forall u, In u users -> In u db)
    /\ users `sublist_of` db.
Proof.
  intros _ _. unfold read_users.
  destruct (get_current_admin_user settings db t now); [simpl|done].
  intros [= <- <-]. eexists. split; [done|].
  split; [rewrite length_take; lia|].
  split; [rewrite length_take, length_drop; lia|].
  assert (Hsub : take (Z.to_nat limit) (drop (Z.to_nat skip) db) `sublist_of` db)
    by (etrans; [apply sublist_take | apply sublist_drop]).
  split; [|done].
  intros u Hu. apply list_elem_of_In in Hu. apply list_elem_of_In.
  by eapply elem_of_sublist.
Qed.

End MoreUpdateFacts.

Lemma update_user_me_applies_witness :
  let user' := with_updated_at (VInt 1001)
                 (updated alice rename_with_password
                    (VBytes (salt_b ++ list_byte_of_string "newpass")%list)) in
  exists current_user h,
    get_current_user ref_settings [alice; carol] alice_token 1001 = Ok current_user
    /\ RUser user'
       = RUser (flush_update 1001 current_user
                  (updated current_user rename_with_password h))
    /\ [user'; carol]
       = db_commit 1001 (id current_user)
           (updated current_user rename_with_password h) [alice; carol]
    /\ truthy (VStr "newpass") = true
    /\ get_password_hash (VStr "newpass") salt_b = Ok h.
Proof.
  exact (update_user_me_applies (H := ref_bcrypt) (H0 := ref_jwt) ref_settings
           [alice; carol] _ rename_with_password alice_token 1001 salt_b _ eq_refl).
Defined.

Lemma update_user_me_taken_witness :
  update_user_me ref_settings [alice; carol] take_email_in alice_token 1001 salt_b
  = Raise (HTTPException 400 "Email already registered" [])
  /\ update_user_me ref_settings [alice; carol] take_username_in alice_token 1001 salt_b
     = Raise (HTTPException 400 "Username already registered" []).
Proof.
  split.
  - apply (proj1 (update_user_me_taken (H := ref_bcrypt) (H0 := ref_jwt) ref_settings
                    [alice; carol] take_email_in alice_token 1001 salt_b alice carol
                    (VStr "c@x.com") eq_refl ltac:(right; left; reflexivity) eq_refl));
      [reflexivity | discriminate | reflexivity].
  - apply (proj2 (update_user_me_taken (H := ref_bcrypt) (H0 := ref_jwt) ref_settings
                    [alice; carol] take_username_in alice_token 1001 salt_b alice carol
                    (VStr "c") eq_refl ltac:(right; left; reflexivity) eq_refl));
      [reflexivity | reflexivity | discriminate | reflexivity].
Defined.

Lemma update_user_me_keeps_unique_emails_witness :
  unique_emails
    [with_updated_at (VInt 1001) (updated alice new_email_in alice_hash); carol].
Proof.
  exact (update_user_me_keeps_unique_emails (H := ref_bcrypt) (H0 := ref_jwt)
           ref_settings [alice; carol] _ new_email_in alice_token 1001 salt_b
           (RUser (with_updated_at (VInt 1001)
                     (updated alice new_email_in alice_hash)))
           ltac:(decide_closed) ltac:(decide_closed)
           ltac:(intros v [= <-]; reflexivity) eq_refl).
Defined.

Lemma update_user_me_sets_own_role_witness :
  let db' := [with_updated_at (VInt 1001) (updated alice make_admin_in alice_hash);
              carol] in
  exists user',
    RUser (with_updated_at (VInt 1001) (updated alice make_admin_in alice_hash))
    = RUser user'
    /\ role user' = UserRole_ADMIN
    /\ get_current_user ref_settings db' alice_token 1001 = Ok user'
    /\ get_current_admin_user ref_settings db' alice_token 1001 = Ok user'.
Proof.
  exact (update_user_me_sets_own_role (H := ref_bcrypt) (H0 := ref_jwt) ref_settings
           [alice; carol] _ make_admin_in alice_token 1001 salt_b _ UserRole_ADMIN
           eq_refl eq_refl ltac:(intros a [=]) eq_refl).
Defined.

Lemma read_only_keeps_store_witness :
  handle ref_settings (ReadUsers 1 5) [alice; carol] carol_token 1001
  = Ok ([alice; carol], RUsers [carol])
  /\ [alice; carol] = [alice; carol].
Proof.
  split; [reflexivity|].
  exact (read_only_keeps_store (H := ref_bcrypt) (H0 := ref_jwt) ref_settings
           (ReadUsers 1 5) [alice; carol] [alice; carol] carol_token 1001
           (RUsers [carol]) eq_refl eq_refl).
Defined.

Lemma read_users_bounds_witness :
  exists users,
    RUsers [bob] = RUsers users
    /\ (length users <= Z.to_nat 1)%nat
    /\ (length users <= length [alice; bob; carol] - Z.to_nat 1)%nat
    /\ (forall u, In u users -> In u [alice; bob; carol])
    /\ users `sublist_of` [alice; bob; carol].
Proof.
  exact (read_users_bounds (H0 := ref_jwt) ref_settings [alice; bob; carol] _ 1 1
           carol_token 1001 _ ltac:(lia) ltac:(lia) eq_refl).
Defined.

(** ** The password hasher, once more *)

Section MoreHasherFacts.
Context `{Bcrypt}.

(** Per-call salting: with two different salts drawn by [gensalt], the
    same password gets two different blobs, and each of them, read as text,
    verifies the password. *)
Theorem get_password_hash_fresh_salt (p : string) (s1 s2 : list byte) :
  is_gensalt s1 = true -> is_gensalt s2 = true -> s1 <> s2 ->
  accepts (list_byte_of_string p) = true ->
  exists h1 h2,
    get_password_hash (VStr p) s1 = Ok (VBytes h1)
    /\ get_password_hash (VStr p) s2 = Ok (VBytes h2)
    /\ h1 <> h2
    /\ verify_password (VStr p) (blob_text (VBytes h1)) = Ok true
    /\ verify_password (VStr p) (blob_text (VBytes h2)) = Ok true.
Proof.
  intros G1 G2 Hne Ha.
  destruct (hashpw_ok _ s1 (gensalt_wellformed _ G1) Ha) as [h1 Hh1].
  destruct (hashpw_ok _ s2 (gensalt_wellformed _ G2) Ha) as [h2 Hh2].
  assert (E1 : get_password_hash (VStr p) s1 = Ok (VBytes h1))
    by (unfold get_password_hash; simpl; by rewrite Hh1).
  assert (E2 : get_password_hash (VStr p) s2 = Ok (VBytes h2))
    by (unfold get_password_hash; simpl; by rewrite Hh2).
  exists h1, h2. repeat split; try done.
  - intros ->. apply Hne. by eapply hashpw_salt.
  - by eapply verify_password_blob_text.
  - by eapply verify_password_blob_text.
Qed.
End MoreHasherFacts.

Lemma get_password_hash_fresh_salt_witness :
  exists h1 h2,
    get_password_hash (VStr "secret1") salt_a = Ok (VBytes h1)
    /\ get_password_hash (VStr "secret1") salt_b = Ok (VBytes h2)
    /\ h1 <> h2
    /\ verify_password (VStr "secret1") (blob_text (VBytes h1)) = Ok true
    /\ verify_password (VStr "secret1") (blob_text (VBytes h2)) = Ok true.
Proof.
  exact (get_password_hash_fresh_salt (H := ref_bcrypt) "secret1" salt_a salt_b
           eq_refl eq_refl ltac:(discriminate) eq_refl).
Defined.

Lemma verify_password_raises_witness :
  verify_password (VInt 7) alice_hash = Raise TypeError
  /\ (TypeError = TypeError \/ TypeError = ValueError).
Proof.
  split; [reflexivity|].
  exact (verify_password_raises (H := ref_bcrypt) (VInt 7) alice_hash TypeError eq_refl).
Defined.

(** ** The counters of a quiz attempt *)

(** Every answer is counted once: as correct, as incorrect, or as not
    marked when [is_correct] is [None]; so the two counters never add up
    to more than the number of answers.  [total_questions] is the number
    of questions of the quiz, and zero without a quiz. *)
Theorem attempt_counters (a : UserQuizAttempt) :
  (correct_answers a + incorrect_answers a
   + length (List.filter (fun answer => bool_decide (is_correct answer = None))
                         (answers a)))%nat
  = length (answers a)
  /\ (correct_answers a + incorrect_answers a <= length (answers a))%nat
  /\ total_questions a = match quiz a with
                         | Some q => length (questions q)
                         | None => 0%nat
                         end.
Proof.
  assert (Hsum : (correct_answers a + incorrect_answers a
                  + length (List.filter
                              (fun answer => bool_decide (is_correct answer = None))
                              (answers a)))%nat
                 = length (answers a)).
  { unfold correct_answers, incorrect_answers.
    induction (answers a) as [|[[[]|]] l IH]; simpl in *; lia. }
  split; [done|]. split; [lia|].
  unfold total_questions. destruct (quiz a) as [q|]; [|done].
  by destruct (questions q).
Qed.
